(** * House price predictor: ensemble model, explainer and market comparator

    A shallow embedding of [backend/src/model_training.py],
    [backend/src/explainer.py] and the feature reduction of
    [backend/app.py], with the properties of the specification stated and
    proved (or refuted) over it.

    Numbers.  Python and NumPy floats are modelled as exact real numbers
    extended with the three special values the code can produce by a
    division by zero: [+inf], [-inf] and [nan].  Rounding and signed zeros
    are not modelled: every finite operation is the exact real one, and a
    zero divisor counts as [+0.0].  Where rounding decides a property,
    the expression is evaluated on binary64 numbers as well. *)

From Stdlib Require Import Floats.
From Stdlib Require Import Reals Lra List String Bool Arith Lia.
From Stdlib Require Import Permutation Sorted ZArith Ascii.
Import ListNotations.

Open Scope string_scope.
Open Scope R_scope.

(** ** NumPy scalars *)

Module NumPy.

Inductive float64 : Type :=
| Fin (x : R)
| PInf
| NInf
| NaN.

Definition Rltb (x y : R) : bool := if Rlt_dec x y then true else false.
Definition Reqb (x y : R) : bool := if Req_dec_T x y then true else false.

Definition is_finite (a : float64) : bool :=
  match a with Fin _ => true | _ => false end.

(** The infinity with the sign of [x]; [nan] for [x = 0]. *)
Definition signed_inf (x : R) : float64 :=
  if Reqb x 0 then NaN else if Rltb 0 x then PInf else NInf.

Definition neg (a : float64) : float64 :=
  match a with
  | Fin x => Fin (- x)
  | PInf => NInf
  | NInf => PInf
  | NaN => NaN
  end.

Definition add (a b : float64) : float64 :=
  match a, b with
  | NaN, _ | _, NaN => NaN
  | Fin x, Fin y => Fin (x + y)
  | PInf, NInf | NInf, PInf => NaN
  | PInf, _ | _, PInf => PInf
  | NInf, _ | _, NInf => NInf
  end.

Definition sub (a b : float64) : float64 := add a (neg b).

Definition mul (a b : float64) : float64 :=
  match a, b with
  | NaN, _ | _, NaN => NaN
  | Fin x, Fin y => Fin (x * y)
  | PInf, Fin y | Fin y, PInf => signed_inf y
  | NInf, Fin y | Fin y, NInf => signed_inf (- y)
  | PInf, PInf | NInf, NInf => PInf
  | PInf, NInf | NInf, PInf => NInf
  end.

(** IEEE division: a finite value over zero is an infinity (or [nan] for
    [0/0]); NumPy only warns, it does not raise. *)
Definition div (a b : float64) : float64 :=
  match a, b with
  | NaN, _ | _, NaN => NaN
  | Fin x, Fin y => if Reqb y 0 then signed_inf x else Fin (x / y)
  | Fin _, (PInf | NInf) => Fin 0
  | (PInf | NInf), (PInf | NInf) => NaN
  | PInf, Fin y => if Rltb y 0 then NInf else PInf
  | NInf, Fin y => if Rltb y 0 then PInf else NInf
  end.

Definition abs (a : float64) : float64 :=
  match a with
  | Fin x => Fin (Rabs x)
  | PInf | NInf => PInf
  | NaN => NaN
  end.

Definition sqrt (a : float64) : float64 :=
  match a with
  | Fin x => if Rltb x 0 then NaN else Fin (R_sqrt.sqrt x)
  | PInf => PInf
  | NInf | NaN => NaN
  end.

(** Ordered comparisons are false as soon as one side is [nan]. *)
Definition lt (a b : float64) : bool :=
  match a, b with
  | NaN, _ | _, NaN => false
  | Fin x, Fin y => Rltb x y
  | NInf, (Fin _ | PInf) => true
  | Fin _, PInf => true
  | _, _ => false
  end.

Definition gt (a b : float64) : bool := lt b a.

(** [np.sum]: accumulation from [0.0]. *)
Definition sum (xs : list float64) : float64 :=
  fold_left add xs (Fin 0).

(** [np.mean]: the sum over the count; [nan] on an empty array. *)
Definition mean (xs : list float64) : float64 :=
  div (sum xs) (Fin (INR (List.length xs))).

(** [np.std] with its default [ddof=0]: the population standard
    deviation [sqrt(mean(|x - mean(x)|^2))]. *)
Definition std (xs : list float64) : float64 :=
  let m := mean xs in
  sqrt (mean (map (fun x => let d := sub x m in mul d d) xs)).


End NumPy.

(** ** pandas reductions *)

Module Pandas.

Definition is_nan (a : NumPy.float64) : bool :=
  match a with NumPy.NaN => true | _ => false end.

(** [Series.mean()], to which [np.mean] hands a [Series] over: with the
    default [skipna=True] the [nan] entries are left out of both the sum
    and the count, and a series with no entry left has the mean [nan]. *)
Definition mean (xs : list NumPy.float64) : NumPy.float64 :=
  let kept := filter (fun a => negb (is_nan a)) xs in
  NumPy.div (NumPy.sum kept) (NumPy.Fin (INR (List.length kept))).

End Pandas.

(** ** Python values: exceptions, results, insertion-ordered dicts *)

Module Py.

Inductive exn : Type :=
| ValueError (msg : string)
| KeyError (key : string)
| TypeError (msg : string)
| IndexError
| ZeroDivisionError
| AttributeError (msg : string).

Inductive result (A : Type) : Type :=
| Ok (a : A)
| Raise (e : exn).
Arguments Ok {A} a.
Arguments Raise {A} e.

Definition bind {A B : Type} (m : result A) (k : A -> result B) : result B :=
  match m with
  | Ok a => k a
  | Raise e => Raise e
  end.

Definition raises {A : Type} (m : result A) : Prop :=
  match m with Ok _ => False | Raise _ => True end.

(** A [dict] with string keys: keys are unique and kept in insertion
    order. *)
Definition dict (V : Type) : Type := list (string * V).

Fixpoint dict_find {V : Type} (d : dict V) (k : string) : option V :=
  match d with
  | [] => None
  | (k', v) :: d' => if String.eqb k' k then Some v else dict_find d' k
  end.

(** [k in d] *)
Definition dict_mem {V : Type} (d : dict V) (k : string) : bool :=
  match dict_find d k with Some _ => true | None => false end.

(** [d[k]] *)
Definition dict_get {V : Type} (d : dict V) (k : string) : result V :=
  match dict_find d k with
  | Some v => Ok v
  | None => Raise (KeyError k)
  end.

(** [d[k] = v]: overwrite in place, or append a new key. *)
Fixpoint dict_set {V : Type} (d : dict V) (k : string) (v : V) : dict V :=
  match d with
  | [] => [(k, v)]
  | (k', v') :: d' =>
      if String.eqb k' k then (k', v) :: d' else (k', v') :: dict_set d' k v
  end.

(** [dict(pairs)] *)
Definition dict_of {V : Type} (pairs : list (string * V)) : dict V :=
  fold_left (fun d kv => dict_set d (fst kv) (snd kv)) pairs [].

Definition keys {V : Type} (d : dict V) : list string := map fst d.
Definition values {V : Type} (d : dict V) : list V := map snd d.

(** Run [f] over a list, stopping at the first exception. *)
Fixpoint mapM {A B : Type} (f : A -> result B) (xs : list A)
  : result (list B) :=
  match xs with
  | [] => Ok []
  | x :: xs' =>
      bind (f x) (fun y => bind (mapM f xs') (fun ys => Ok (y :: ys)))
  end.

(** The builtin [sum] over floats. *)
Definition sum (xs : list R) : R := fold_left Rplus xs 0.

End Py.

Notation "x <- m ;; k" := (Py.bind m (fun x => k))
  (at level 61, m at next level, right associativity).


(** ** [backend/src/model_training.py] *)

Module ModelTraining.

(** A [pandas.DataFrame] of numeric columns: column name to column values,
    in column order.  A [pandas.Series] or a NumPy array of prices is a
    [list R]. *)
Definition DataFrame : Type := Py.dict (list R).

Definition columns (X : DataFrame) : list string := Py.keys X.

(** [len(X)] *)
Definition n_rows (X : DataFrame) : nat :=
  match X with
  | [] => 0%nat
  | (_, c) :: _ => List.length c
  end.

(** [X[names]]: the named columns in the order asked for; a name that is
    not a column raises [KeyError]. *)
Definition select (X : DataFrame) (names : list string)
  : Py.result DataFrame :=
  Py.mapM (fun n => c <- Py.dict_get X n ;; Py.Ok (n, c)) names.

(** Python float division. *)
Definition truediv (a b : R) : Py.result R :=
  if NumPy.Reqb b 0 then Py.Raise Py.ZeroDivisionError else Py.Ok (a / b).

(** The builtin [max(0, x)]: [x] is taken only if [x > 0] holds. *)
Definition max0 (x : NumPy.float64) : NumPy.float64 :=
  if NumPy.gt x (NumPy.Fin 0) then x else NumPy.Fin 0.

(** [a[0]] *)
Definition first (a : list R) : Py.result R :=
  match a with
  | [] => Py.Raise Py.IndexError
  | x :: _ => Py.Ok x
  end.

(** [a + b] of two one-dimensional arrays: elementwise on equal lengths;
    an array of one element is broadcast over the other; any other pair of
    shapes raises [ValueError]. *)
Definition add_arrays (a b : list R) : Py.result (list R) :=
  if Nat.eqb (List.length a) (List.length b)
  then Py.Ok (map (fun xy => fst xy + snd xy) (combine a b))
  else
    match a, b with
    | [x], _ => Py.Ok (map (fun y => x + y) b)
    | _, [y] => Py.Ok (map (fun x => x + y) a)
    | _, _ =>
        Py.Raise (Py.ValueError "operands could not be broadcast together")
    end.

(** NumPy's rule for the lengths [m] and [n] of two one-dimensional
    operands: they are equal or one of them is 1; the result then has the
    other length. *)
Definition broadcastable (m n : nat) : Prop :=
  m = n \/ m = 1%nat \/ n = 1%nat.

Definition broadcast_length (m n : nat) : nat :=
  if Nat.eqb m 1 then n else m.

(** [acc += b]: as [acc + b], except that the sum must have the shape of
    [acc], so only [b] can be broadcast. *)
Definition iadd_arrays (acc b : list R) : Py.result (list R) :=
  if Nat.eqb (List.length acc) (List.length b)
  then Py.Ok (map (fun xy => fst xy + snd xy) (combine acc b))
  else
    match b with
    | [y] => Py.Ok (map (fun x => x + y) acc)
    | _ =>
        Py.Raise (Py.ValueError "operands could not be broadcast together")
    end.

Record Hyper : Type := {
  n_estimators : nat;
  max_depth : nat;
  learning_rate : R;
  subsample : R;
  colsample_bytree : R;
  random_state : nat
}.

(** The configured, not yet fitted estimators. *)
Inductive Estimator : Type :=
| XGBRegressor (h : Hyper)
| LGBMRegressor (h : Hyper).

(** A fitted regressor, as far as this module uses it. *)
Record Regressor : Type := {
  predict_array : DataFrame -> list R;
  feature_importances_ : list R
}.

(** What the module calls in scikit-learn, XGBoost, LightGBM and
    [datetime]. *)
Record Externals : Type := {
  train_test_split :
    DataFrame -> list R -> R -> nat ->
    DataFrame * DataFrame * list R * list R;
  fit : Estimator -> DataFrame -> list R -> Regressor;
  mean_squared_error : list R -> list R -> R;
  mean_absolute_error : list R -> list R -> R;
  r2_score : list R -> list R -> R;
  now_isoformat : string
}.

Record Metrics : Type := {
  rmse : NumPy.float64;
  mae : R;
  r2 : R;
  mape : NumPy.float64
}.

Record TrainingReport : Type := {
  individual_models : Py.dict Metrics;
  training_date : string;
  n_samples : nat;
  n_features : nat;
  report_weights : Py.dict R
}.

Record HousePriceModel : Type := {
  models : Py.dict Regressor;
  weights : Py.dict R;
  feature_names : option (list string);
  metrics : option TrainingReport;
  is_trained : bool
}.

Record PredictionResult : Type := {
  predicted_price : R;
  price_lower : NumPy.float64;
  price_upper : NumPy.float64;
  confidence : NumPy.float64;
  model_predictions : Py.dict R
}.

Definition __init__ : HousePriceModel :=
  {| models := []; weights := []; feature_names := None;
     metrics := None; is_trained := false |}.

Definition base_hyper : Hyper :=
  {| n_estimators := 500; max_depth := 6; learning_rate := 5 / 100;
     subsample := 8 / 10; colsample_bytree := 8 / 10; random_state := 42 |}.

Definition _create_base_models : Py.dict Estimator :=
  [("xgboost", XGBRegressor base_hyper);
   ("lightgbm", LGBMRegressor base_hyper)].

(** One row of [(y_true - y_pred) / y_true]. *)
Definition relative_error (tp : R * R) : NumPy.float64 :=
  NumPy.div (NumPy.Fin (fst tp - snd tp)) (NumPy.Fin (fst tp)).

(** The percentage errors [(y_true - y_pred) / y_true], elementwise;
    [y_true] is the [Series] of held-out prices, and so is the quotient. *)
Definition relative_errors (y_true y_pred : list R) : list NumPy.float64 :=
  map relative_error (combine y_true y_pred).

Definition _calculate_metrics (lib : Externals) (y_true y_pred : list R)
  : Metrics :=
  {| rmse := NumPy.sqrt (NumPy.Fin (mean_squared_error lib y_true y_pred));
     mae := mean_absolute_error lib y_true y_pred;
     r2 := r2_score lib y_true y_pred;
     mape := NumPy.mul
               (Pandas.mean (map NumPy.abs (relative_errors y_true y_pred)))
               (NumPy.Fin 100) |}.

(** Lines 89-91 of [train]: [total_r2 = sum(scores.values())] and
    [{name: r2 / total_r2 for name, r2 in scores.items()}]. *)
Definition blend_weights (model_r2_scores : Py.dict R)
  : Py.result (Py.dict R) :=
  let total_r2 := Py.sum (Py.values model_r2_scores) in
  Py.mapM (fun nr => w <- truediv (snd nr) total_r2 ;; Py.Ok (fst nr, w))
          model_r2_scores.

(** The weighted sum of the learners' test predictions, accumulated into
    [np.zeros(len(y_test))]. *)
Fixpoint ensemble_predictions (w : Py.dict R) (fitted : Py.dict Regressor)
    (X_test : DataFrame) (acc : list R) : Py.result (list R) :=
  match fitted with
  | [] => Py.Ok acc
  | (name, model) :: rest =>
      wn <- Py.dict_get w name ;;
      acc' <- iadd_arrays acc (map (Rmult wn) (predict_array model X_test)) ;;
      ensemble_predictions w rest X_test acc'
  end.

(** The loop of lines 78-87: every base model fitted on the train
    partition, in the order of [self.models]. *)
Definition fit_models (lib : Externals) (X_train : DataFrame)
    (y_train : list R) : Py.dict Regressor :=
  map (fun ne => (fst ne, fit lib (snd ne) X_train y_train))
      _create_base_models.

(** ... and evaluated on the test partition ([model_metrics]). *)
Definition evaluate_models (lib : Externals) (fitted : Py.dict Regressor)
    (X_test : DataFrame) (y_test : list R) : Py.dict Metrics :=
  map (fun nm =>
         (fst nm,
          _calculate_metrics lib y_test (predict_array (snd nm) X_test)))
      fitted.

(** [model_r2_scores] *)
Definition r2_scores (model_metrics : Py.dict Metrics) : Py.dict R :=
  map (fun nm => (fst nm, r2 (snd nm))) model_metrics.

(** The r2 scores that a call [train(X, y, test_size)] feeds to the
    weights. *)
Definition held_out_r2 (lib : Externals) (X : DataFrame) (y : list R)
    (test_size : R) : Py.dict R :=
  let '(X_train, X_test, y_train, y_test) :=
    train_test_split lib X y test_size 42 in
  r2_scores (evaluate_models lib (fit_models lib X_train y_train)
                             X_test y_test).

(** [train] returns the object as the call leaves it, together with the
    returned report or the exception raised. *)
Definition train (lib : Externals) (self : HousePriceModel)
    (X : DataFrame) (y : list R) (test_size : R)
  : HousePriceModel * Py.result TrainingReport :=
  let names := columns X in
  let '(X_train, X_test, y_train, y_test) :=
    train_test_split lib X y test_size 42 in
  let fitted := fit_models lib X_train y_train in
  let self1 :=
    {| models := fitted; weights := weights self;
       feature_names := Some names; metrics := metrics self;
       is_trained := is_trained self |} in
  let model_metrics := evaluate_models lib fitted X_test y_test in
  let model_r2_scores := r2_scores model_metrics in
  match blend_weights model_r2_scores with
  | Py.Raise e => (self1, Py.Raise e)
  | Py.Ok w =>
      let self2 :=
        {| models := fitted; weights := w;
           feature_names := Some names; metrics := metrics self;
           is_trained := is_trained self |} in
      match ensemble_predictions w fitted X_test
              (repeat 0 (List.length y_test)) with
      | Py.Raise e => (self2, Py.Raise e)
      | Py.Ok y_pred_ensemble =>
          let ensemble_metrics :=
            _calculate_metrics lib y_test y_pred_ensemble in
          let report :=
            {| individual_models :=
                 Py.dict_set model_metrics "ensemble" ensemble_metrics;
               training_date := now_isoformat lib;
               n_samples := n_rows X;
               n_features := List.length names;
               report_weights := w |} in
          ({| models := fitted; weights := w;
              feature_names := Some names; metrics := Some report;
              is_trained := true |},
           Py.Ok report)
      end
  end.

(** [self.feature_names], which is [None] until [train] or [load] sets
    it: indexing a frame by [None] is a [KeyError]. *)
Definition schema (self : HousePriceModel) : Py.result (list string) :=
  match feature_names self with
  | Some names => Py.Ok names
  | None => Py.Raise (Py.KeyError "None")
  end.

Definition predict (self : HousePriceModel) (X : DataFrame)
  : Py.result PredictionResult :=
  if negb (is_trained self) then
    Py.Raise (Py.ValueError "Model not trained yet!")
  else
    names <- schema self ;;
    X' <- select X names ;;
    predictions <-
      Py.mapM (fun nm =>
                 p <- first (predict_array (snd nm) X') ;; Py.Ok (fst nm, p))
              (models self) ;;
    terms <-
      Py.mapM (fun np => w <- Py.dict_get (weights self) (fst np) ;;
                         Py.Ok (w * snd np))
              predictions ;;
    let ensemble_pred := Py.sum terms in
    let pred_values := map NumPy.Fin (Py.values predictions) in
    let mean_pred := NumPy.mean pred_values in
    let std_pred := NumPy.std pred_values in
    let confidence_margin := NumPy.mul (NumPy.Fin (196 / 100)) std_pred in
    let lower_bound :=
      max0 (NumPy.sub (NumPy.Fin ensemble_pred) confidence_margin) in
    let upper_bound := NumPy.add (NumPy.Fin ensemble_pred) confidence_margin in
    Py.Ok
      {| predicted_price := ensemble_pred;
         price_lower := lower_bound;
         price_upper := upper_bound;
         confidence :=
           if NumPy.gt mean_pred (NumPy.Fin 0)
           then NumPy.sub (NumPy.Fin 1) (NumPy.div std_pred mean_pred)
           else NumPy.Fin (8 / 10);
         model_predictions := predictions |}.




(** [dict(zip(self.feature_names, imp.tolist()))] *)
Definition importance_dict (self : HousePriceModel) (imp : list R)
  : Py.result (Py.dict R) :=
  match feature_names self with
  | Some names => Py.Ok (Py.dict_of (combine names imp))
  | None => Py.Raise (Py.TypeError "'NoneType' object is not iterable")
  end.

Definition get_feature_importance (self : HousePriceModel)
  : Py.result (Py.dict (Py.dict R)) :=
  if negb (is_trained self) then Py.Ok []
  else
    xgb <- Py.dict_get (models self) "xgboost" ;;
    let xgb_imp := feature_importances_ xgb in
    d_xgb <- importance_dict self xgb_imp ;;
    lgb <- Py.dict_get (models self) "lightgbm" ;;
    let lgb_imp := feature_importances_ lgb in
    d_lgb <- importance_dict self lgb_imp ;;
    cat <- Py.dict_get (models self) "catboost" ;;
    let cat_imp := feature_importances_ cat in
    d_cat <- importance_dict self cat_imp ;;
    xgb_lgb <- add_arrays xgb_imp lgb_imp ;;
    total <- add_arrays xgb_lgb cat_imp ;;
    let avg_imp := map (fun s => s / 3) total in
    d_avg <- importance_dict self avg_imp ;;
    Py.Ok [("xgboost", d_xgb); ("lightgbm", d_lgb); ("catboost", d_cat);
           ("average", d_avg)].

End ModelTraining.


(** ** [backend/src/explainer.py] *)

Module Explainer.

Import ModelTraining.

(** A [shap.TreeExplainer], as far as this module uses it:
    [shap_values(X)] for the first sample of [X], and [expected_value]. *)
Record TreeExplainer : Type := {
  shap_values : DataFrame -> list R;
  expected_value : R
}.

(** What the module calls in [shap], [pandas] and scikit-learn. *)
Record Externals : Type := {
  tree_explainer : Regressor -> TreeExplainer;
  sample : DataFrame -> nat -> nat -> DataFrame;
  (** [StandardScaler] fitted on the training frame, then
      [NearestNeighbors(n_neighbors=k)] and [kneighbors] of the query: the
      distance and the training row index of each neighbour of the first
      query row, or the exception that scikit-learn raises (a training
      frame without rows, a [k] that is not positive, frames that do not
      match). *)
  kneighbors : DataFrame -> DataFrame -> Z -> Py.result (list (R * nat))
}.

Record ModelExplainer : Type := {
  model : HousePriceModel;
  explainer : option TreeExplainer;
  background_data : option DataFrame
}.

Definition __init__ (m : HousePriceModel) : ModelExplainer :=
  {| model := m; explainer := None; background_data := None |}.

Definition setup (lib : Externals) (self : ModelExplainer)
    (X_train : DataFrame) (n_samples : nat) : ModelExplainer :=
  let background :=
    if (n_samples <? n_rows X_train)%nat
    then sample lib X_train n_samples 42
    else X_train in
  {| model := model self;
     explainer :=
       match Py.dict_find (models (model self)) "xgboost" with
       | Some xgb => Some (tree_explainer lib xgb)
       | None => explainer self
       end;
     background_data := Some background |}.

Inductive Direction : Type := increases | decreases.

(** One entry of [top_factors]; the templated [description] sentence is a
    rendering of [feature], the feature's value and [direction]. *)
Record Factor : Type := {
  feature : string;
  impact : R;
  impact_percentage : R;
  direction : Direction
}.

Inductive Explanation : Type :=
| ExplainError (msg : string)
| Explained (shap : Py.dict R) (top_factors : list Factor) (base_value : R).

(** Insertion into a list sorted by decreasing [|value|], ahead of the
    entries of equal magnitude. *)
Fixpoint insert_by_abs (x : string * R) (l : list (string * R))
  : list (string * R) :=
  match l with
  | [] => [x]
  | y :: l' =>
      if NumPy.Rltb (Rabs (snd x)) (Rabs (snd y))
      then y :: insert_by_abs x l'
      else x :: y :: l'
  end.

(** [sorted(items, key=lambda x: abs(x[1]), reverse=True)] *)
Definition sorted_by_abs (items : list (string * R)) : list (string * R) :=
  fold_right insert_by_abs [] items.

Definition explain_prediction (self : ModelExplainer) (X : DataFrame)
  : Explanation :=
  match explainer self with
  | None => ExplainError "Explainer not setup"
  | Some e =>
      let importance := Py.dict_of (combine (columns X) (shap_values e X)) in
      let sorted_importance := sorted_by_abs importance in
      let total_impact := Py.sum (map (fun kv => Rabs (snd kv)) importance) in
      let top_factors :=
        map (fun fv =>
               {| feature := fst fv;
                  impact := snd fv;
                  impact_percentage :=
                    if NumPy.Rltb 0 total_impact
                    then Rabs (snd fv) / total_impact * 100
                    else 0;
                  direction :=
                    if NumPy.Rltb 0 (snd fv) then increases else decreases |})
            (firstn 5 sorted_importance) in
      Explained importance top_factors (expected_value e)
  end.

(** [s.iloc[idx]] *)
Definition iloc (s : list R) (idx : nat) : Py.result R :=
  match nth_error s idx with
  | Some v => Py.Ok v
  | None => Py.Raise Py.IndexError
  end.

(** [X.iloc[idx].to_dict()] *)
Definition row_dict (X : DataFrame) (idx : nat) : Py.result (Py.dict R) :=
  Py.mapM (fun nc => v <- iloc (snd nc) idx ;; Py.Ok (fst nc, v)) X.

(** The training row [idx] exists: in the prices and in every column. *)
Definition row_exists (X_train : DataFrame) (y_train : list R) (idx : nat)
  : Prop :=
  (idx < List.length y_train)%nat
  /\ Forall (fun nc => (idx < List.length (snd nc))%nat) X_train.

(** Line 122: [float(1 / (1 + dist))]. *)
Definition similarity_score (dist : R) : NumPy.float64 :=
  NumPy.div (NumPy.Fin 1) (NumPy.Fin (1 + dist)).

(** The same line on binary64 numbers, with their rounding. *)
Definition similarity_score_binary64 (dist : float) : float :=
  (1 / (1 + dist))%float.

Record Similar : Type := {
  rank : nat;
  price : R;
  score : NumPy.float64;
  features : Py.dict R
}.

Fixpoint similar_entries (X_train : DataFrame) (y_train : list R)
    (i : nat) (neighbours : list (R * nat)) : Py.result (list Similar) :=
  match neighbours with
  | [] => Py.Ok []
  | (dist, idx) :: rest =>
      p <- iloc y_train idx ;;
      f <- row_dict X_train idx ;;
      more <- similar_entries X_train y_train (S i) rest ;;
      Py.Ok ({| rank := i + 1; price := p; score := similarity_score dist;
                features := f |} :: more)
  end.

Definition get_similar_properties (lib : Externals) (X_train : DataFrame)
    (y_train : list R) (input_features : DataFrame) (n_similar : Z)
  : Py.result (list Similar) :=
  neighbours <-
    kneighbors lib X_train input_features
      (Z.min n_similar (Z.of_nat (n_rows X_train))) ;;
  similar_entries X_train y_train 0 neighbours.

Inductive Status : Type := unknown | overpriced | underpriced | fair.

(** The suggestion sentence, with the magnitude [abs(difference_pct)] it
    prints. *)
Inductive Suggestion : Type :=
| AboveMarket (pct : NumPy.float64)
| BelowMarket (pct : NumPy.float64)
| PricedFairly.

Record Comparison : Type := {
  status : Status;
  difference_pct : NumPy.float64;
  avg_similar_price : option NumPy.float64;
  suggestion : option Suggestion
}.

(** [(difference / avg_similar) * 100] with
    [difference = predicted_price - avg_similar]. *)
Definition pct_diff (predicted_price : R) (avg_similar : NumPy.float64)
  : NumPy.float64 :=
  let difference := NumPy.sub (NumPy.Fin predicted_price) avg_similar in
  NumPy.mul (NumPy.div difference avg_similar) (NumPy.Fin 100).

Definition compare_to_market (predicted_price : R) (similar_prices : list R)
  : Comparison :=
  match similar_prices with
  | [] =>
      {| status := unknown; difference_pct := NumPy.Fin 0;
         avg_similar_price := None; suggestion := None |}
  | _ :: _ =>
      let avg_similar := NumPy.mean (map NumPy.Fin similar_prices) in
      let pct := pct_diff predicted_price avg_similar in
      if NumPy.gt pct (NumPy.Fin 10) then
        {| status := overpriced; difference_pct := pct;
           avg_similar_price := Some avg_similar;
           suggestion := Some (AboveMarket (NumPy.abs pct)) |}
      else if NumPy.lt pct (NumPy.Fin (- 10)) then
        {| status := underpriced; difference_pct := pct;
           avg_similar_price := Some avg_similar;
           suggestion := Some (BelowMarket (NumPy.abs pct)) |}
      else
        {| status := fair; difference_pct := pct;
           avg_similar_price := Some avg_similar;
           suggestion := Some PricedFairly |}
  end.

End Explainer.

(** ** [backend/src/ai_integration.py] *)

Module AiIntegration.

(** A decoded JSON value. *)
#[warnings="-register-all"]
Inductive json : Type :=
| JNull
| JBool (b : bool)
| JNum (x : R)
| JStr (s : string)
| JArr (items : list json)
| JObj (fields : list (string * json)).

(** What a method asks the service: the prompt is a rendering of it. *)
Inductive Question : Type :=
| AskMarketData (city : string)
| AskValuation (base_price : R) (city : string) (area_sqft : Z)
    (bedrooms : Z) (amenities : list string)
| AskComparison (city : string) (predicted_price : R)
| AskCrimeData (city : string).

(** The answer of [requests.post]: the status code and
    [response.json()['choices'][0]['message']['content']], a JSON value of
    any kind; the lookup raises on a body of another shape. *)
Record HttpResponse : Type := {
  status_code : nat;
  content : Py.result json
}.

(** What the module calls in [requests] and [json]: [json.loads] on a text
    delimited by braces gives an object, and [None] stands for
    [JSONDecodeError]. *)
Record Externals : Type := {
  post : Question -> Py.result HttpResponse;
  loads_object : string -> option (Py.dict json)
}.

(** The truth value of a decoded JSON value, as [if response:] takes it. *)
Definition truthy (v : json) : bool :=
  match v with
  | JNull => false
  | JBool b => b
  | JNum x => negb (NumPy.Reqb x 0)
  | JStr s => negb (String.eqb s EmptyString)
  | JArr items => match items with [] => false | _ :: _ => true end
  | JObj fields => match fields with [] => false | _ :: _ => true end
  end.

(** [PerplexityAI._query]: no call without an API key; any exception and
    any status but 200 give [None]. *)
Definition _query (lib : Externals) (api_key : string) (q : Question)
  : option json :=
  if String.eqb api_key EmptyString then None
  else
    match post lib q with
    | Py.Raise _ => None
    | Py.Ok response =>
        if (status_code response =? 200)%nat then
          match content response with
          | Py.Ok v => Some v
          | Py.Raise _ => None
          end
        else None
    end.

(** The service gives no usable answer: there is no API key, the request
    raises, the status is not 200, the body has another shape, or the
    content is empty ([None], an empty text, list or object, zero or
    [false]). *)
Definition service_unavailable (lib : Externals) (api_key : string)
    (q : Question) : Prop :=
  api_key = EmptyString
  \/ (exists e, post lib q = Py.Raise e)
  \/ (exists response,
        post lib q = Py.Ok response
        /\ (status_code response <> 200%nat
            \/ (exists e, content response = Py.Raise e)
            \/ (exists v, content response = Py.Ok v /\ truthy v = false))).

(** The service answers, with the status 200, a content that is neither
    empty nor a text: a number, [true], a list or an object. *)
Definition content_not_text (lib : Externals) (api_key : string)
    (q : Question) : Prop :=
  api_key <> EmptyString
  /\ exists response v,
       post lib q = Py.Ok response
       /\ status_code response = 200%nat
       /\ content response = Py.Ok v
       /\ truthy v = true
       /\ forall text, v <> JStr text.

(** [s.find(c)], with [None] for -1. *)
Fixpoint find (c : ascii) (s : string) : option nat :=
  match s with
  | EmptyString => None
  | String a s' =>
      if Ascii.eqb a c then Some 0%nat else option_map S (find c s')
  end.

(** [s.rfind(c)], with [None] for -1. *)
Fixpoint rfind (c : ascii) (s : string) : option nat :=
  match s with
  | EmptyString => None
  | String a s' =>
      match rfind c s' with
      | Some i => Some (S i)
      | None => if Ascii.eqb a c then Some 0%nat else None
      end
  end.

(** The text handed to [json.loads]: [response[start:end]] with
    [start = response.find(opening)] and
    [end = response.rfind(closing) + 1], if [start >= 0 and end > start]. *)
Definition json_text (opening closing : ascii) (response : string)
  : option string :=
  match find opening response, rfind closing response with
  | Some start, Some last =>
      if (start <? last + 1)%nat
      then Some (substring start (last + 1 - start) response)
      else None
  | _, _ => None
  end.

(** The common body of the methods, [if response: try: ... except
    json.JSONDecodeError: pass]: the decoded answer, if the service gave a
    non-empty text that holds a decodable JSON text.  A content that is not
    empty and has no [find] method raises [AttributeError], which the
    [except] clause does not catch. *)
Definition decoded {A : Type} (opening closing : ascii)
    (loads : string -> option A) (response : option json)
  : Py.result (option A) :=
  match response with
  | None => Py.Ok None
  | Some v =>
      if truthy v then
        match v with
        | JStr text =>
            Py.Ok match json_text opening closing text with
                  | Some t => loads t
                  | None => None
                  end
        | _ => Py.Raise (Py.AttributeError "find")
        end
      else Py.Ok None
  end.

Record MarketData : Type := {
  md_city : string;
  avg_price_per_sqft : R;
  market_trend : string;
  yoy_change_percent : R;
  demand_level : string;
  best_areas : list string;
  price_range_lakhs : R * R;
  rental_yield_percent : R;
  data_source : string;
  md_real_time : bool
}.

(** [city_data] of [_get_fallback_market_data]: average, trend and
    year-on-year change. *)
Definition city_data : Py.dict (R * string * R) :=
  [("Mumbai", (15000, "rising", 85 / 10));
   ("Delhi", (12000, "rising", 72 / 10));
   ("Bangalore", (9500, "rising", 9));
   ("Hyderabad", (7500, "rising", 105 / 10));
   ("Pune", (8000, "stable", 55 / 10));
   ("Chennai", (7000, "stable", 48 / 10))].

Definition _get_fallback_market_data (city : string) : MarketData :=
  let data :=
    match Py.dict_find city_data city with
    | Some d => d
    | None => (6000, "stable", 5)
    end in
  {| md_city := city;
     avg_price_per_sqft := fst (fst data);
     market_trend := snd (fst data);
     yoy_change_percent := snd data;
     demand_level := if NumPy.Rltb 7 (snd data) then "high" else "medium";
     best_areas := ["Central"; "Suburban"; "Developing"];
     price_range_lakhs := (30, 500);
     rental_yield_percent := 35 / 10;
     data_source := "cached market data";
     md_real_time := false |}.

Record PlatformPrice : Type := {
  name : string;
  avg_price_lakhs : R;
  listings_count : nat
}.

Record Comparison : Type := {
  platforms : list PlatformPrice;
  market_average_lakhs : R;
  your_price_vs_market : string;
  best_platform_to_buy : string;
  market_insight : string;
  cmp_real_time : bool
}.

Definition _get_fallback_comparison (city : string) (predicted_price : R)
  : Comparison :=
  let price_lakhs := predicted_price / 100000 in
  {| platforms :=
       [{| name := "99acres"; avg_price_lakhs := price_lakhs * (97 / 100);
           listings_count := 245 |};
        {| name := "MagicBricks";
           avg_price_lakhs := price_lakhs * (103 / 100);
           listings_count := 189 |};
        {| name := "Housing.com";
           avg_price_lakhs := price_lakhs * (95 / 100);
           listings_count := 312 |};
        {| name := "NoBroker"; avg_price_lakhs := price_lakhs * (92 / 100);
           listings_count := 156 |};
        {| name := "CommonFloor";
           avg_price_lakhs := price_lakhs * (101 / 100);
           listings_count := 98 |}];
     market_average_lakhs := price_lakhs * (976 / 1000);
     your_price_vs_market := "fair";
     best_platform_to_buy := "NoBroker";
     market_insight := "Market conditions are stable with moderate demand.";
     cmp_real_time := false |}.

Record Valuation : Type := {
  ai_adjusted_price_lakhs : R;
  confidence_score : R;
  market_alignment : string;
  price_adjustment_percent : R;
  key_factors : list string;
  investment_rating : string;
  recommendation : string;
  ai_enhanced : bool
}.

(** An answer of a method: the decoded reply of the service, or the
    module's own fallback. *)
Inductive Answer (Live Fallback : Type) : Type :=
| FromService (reply : Live)
| FromFallback (data : Fallback).
Arguments FromService {Live Fallback} reply.
Arguments FromFallback {Live Fallback} data.

Definition get_real_time_market_data (lib : Externals) (api_key : string)
    (city : string) : Py.result (Answer (Py.dict json) MarketData) :=
  reply <- decoded "{" "}" (loads_object lib)
             (_query lib api_key (AskMarketData city)) ;;
  Py.Ok match reply with
        | Some data => FromService data
        | None => FromFallback (_get_fallback_market_data city)
        end.

Definition enhance_prediction (lib : Externals) (api_key : string)
    (base_price : R) (city : string) (area_sqft : Z) (bedrooms : Z)
    (amenities : list string) : Py.result (Answer (Py.dict json) Valuation) :=
  reply <- decoded "{" "}" (loads_object lib)
             (_query lib api_key
                (AskValuation base_price city area_sqft bedrooms amenities)) ;;
  Py.Ok match reply with
        | Some data =>
            FromService (Py.dict_set data "ai_enhanced" (JBool true))
        | None =>
            FromFallback
              {| ai_adjusted_price_lakhs := base_price / 100000;
                 confidence_score := 75;
                 market_alignment := "fair";
                 price_adjustment_percent := 0;
                 key_factors := ["Location"; "Property size"; "Local demand"];
                 investment_rating := "good";
                 recommendation := "Based on our ML model prediction.";
                 ai_enhanced := false |}
        end.

Definition get_market_comparison (lib : Externals) (api_key : string)
    (city : string) (predicted_price : R)
  : Py.result (Answer (Py.dict json) Comparison) :=
  reply <- decoded "{" "}" (loads_object lib)
             (_query lib api_key (AskComparison city predicted_price)) ;;
  Py.Ok match reply with
        | Some data => FromService (Py.dict_set data "real_time" (JBool true))
        | None => FromFallback (_get_fallback_comparison city predicted_price)
        end.

Definition get_city_crime_data (lib : Externals) (api_key : string)
    (city : string) : Py.result (option (Py.dict json)) :=
  reply <- decoded "{" "}" (loads_object lib)
             (_query lib api_key (AskCrimeData city)) ;;
  Py.Ok match reply with
        | Some data => Some (Py.dict_set data "real_time" (JBool true))
        | None => None
        end.

End AiIntegration.


(** ** [backend/src/data_processing.py]: the crime score of a city *)

Module DataProcessing.

Import AiIntegration.

(** City crime index, 1 to 10, higher is more crime. *)
Definition CITY_CRIME_INDEX : Py.dict R :=
  [("Delhi", 78 / 10);
   ("Mumbai", 65 / 10);
   ("Bangalore", 42 / 10);
   ("Chennai", 45 / 10);
   ("Kolkata", 58 / 10);
   ("Hyderabad", 4);
   ("Pune", 35 / 10);
   ("Ahmedabad", 52 / 10);
   ("Jaipur", 55 / 10);
   ("Lucknow", 6);
   ("Surat", 38 / 10);
   ("Kanpur", 65 / 10);
   ("Nagpur", 48 / 10);
   ("Indore", 4);
   ("Thane", 5);
   ("Bhopal", 55 / 10);
   ("Visakhapatnam", 35 / 10);
   ("Patna", 68 / 10);
   ("Vadodara", 4);
   ("Ghaziabad", 62 / 10);
   ("Ludhiana", 5);
   ("Agra", 58 / 10);
   ("Nashik", 42 / 10);
   ("Faridabad", 65 / 10);
   ("Meerut", 6);
   ("Rajkot", 35 / 10);
   ("Varanasi", 55 / 10);
   ("Srinagar", 7);
   ("Coimbatore", 32 / 10);
   ("Chandigarh", 38 / 10);
   ("Noida", 55 / 10);
   ("Gurgaon", 58 / 10);
   ("Kochi", 3);
   ("Mangalore", 28 / 10);
   ("Mysore", 35 / 10);
   ("Trivandrum", 32 / 10);
   ("Madurai", 4);
   ("Jodhpur", 45 / 10);
   ("Udaipur", 35 / 10);
   ("Dehradun", 42 / 10);
   ("Amritsar", 5);
   ("Ranchi", 55 / 10);
   ("Bhubaneswar", 4);
   ("Guwahati", 48 / 10);
   ("Raipur", 45 / 10);
   ("Vijayawada", 42 / 10);
   ("Tiruchirappalli", 38 / 10);
   ("Salem", 4);
   ("Guntur", 45 / 10);
   ("Nellore", 4);
   ("Tirupati", 32 / 10);
   ("Shimla", 25 / 10);
   ("Pondicherry", 3);
   ("Goa", 35 / 10);
   ("Jammu", 55 / 10);
   ("Jalandhar", 48 / 10);
   ("Belgaum", 4);
   ("Hubli", 42 / 10);
   ("Vellore", 35 / 10);
   ("Aurangabad", 48 / 10);
   ("Solapur", 45 / 10);
   ("Aligarh", 55 / 10);
   ("Bareilly", 52 / 10);
   ("Moradabad", 58 / 10);
   ("Gorakhpur", 55 / 10);
   ("Allahabad", 55 / 10);
   ("Jabalpur", 5);
   ("Gwalior", 52 / 10);
   ("Dhanbad", 58 / 10);
   ("Jamshedpur", 45 / 10);
   ("Bokaro", 5);
   ("Asansol", 55 / 10);
   ("Durgapur", 48 / 10);
   ("Siliguri", 5);
   ("Cuttack", 45 / 10);
   ("Default", 5)].

(** What the function calls in the language: [str.title] and the
    conversion [float(s)] of a string ([None] stands for [ValueError]). *)
Record Externals : Type := {
  title : string -> string;
  float_of_str : string -> option R
}.

(** [float(v)] of a decoded JSON value. *)
Definition to_float (lib : Externals) (v : json) : Py.result R :=
  match v with
  | JNum x => Py.Ok x
  | JBool b => Py.Ok (if b then 1 else 0)
  | JStr s =>
      match float_of_str lib s with
      | Some x => Py.Ok x
      | None => Py.Raise (Py.ValueError "could not convert string to float")
      end
  | JNull | JArr _ | JObj _ =>
      Py.Raise (Py.TypeError "float() argument must be a string or a number")
  end.

(** [d.get(k, default)] *)
Definition get_or {V : Type} (d : Py.dict V) (k : string) (default : V) : V :=
  match Py.dict_find d k with
  | Some v => v
  | None => default
  end.

(** The four shapes of the mapping returned: from the table, from the
    cache (the cached values as they are), from the service, and the
    default with its note. *)
Inductive CrimeScore : Type :=
| Hardcoded (city : string) (crime_index safety_score : R)
| Cached (city : string) (crime_index safety_score : json)
| RealTime (city : string) (crime_index safety_score : R)
    (common_crimes year_trend : json)
| Defaulted (city : string) (crime_index safety_score : R).

(** [CITY_CRIME_INDEX['Default']], an entry of the table. *)
Definition default_index : R := get_or CITY_CRIME_INDEX "Default" 5.

(** [_city_crime_cache] is passed in and returned; every exception of the
    lookup through the service is caught and leads to the default. *)
Definition get_city_crime_score (lib : Externals)
    (ai : AiIntegration.Externals) (api_key : string)
    (cache : Py.dict (Py.dict json)) (city : string)
  : Py.dict (Py.dict json) * CrimeScore :=
  let city := if String.eqb city EmptyString then "Default"
              else title lib city in
  let fallback := Defaulted city default_index (10 - default_index) in
  match Py.dict_find CITY_CRIME_INDEX city with
  | Some crime_index =>
      (cache, Hardcoded city crime_index (10 - crime_index))
  | None =>
      match Py.dict_find cache city with
      | Some cached =>
          (cache,
           Cached city (get_or cached "crime_index" (JNum 5))
                  (get_or cached "safety_score" (JNum 5)))
      | None =>
          match get_city_crime_data ai api_key city with
          | Py.Raise _ | Py.Ok None => (cache, fallback)
          | Py.Ok (Some ai_data) =>
              if Py.dict_mem ai_data "crime_index" then
                let cache' := Py.dict_set cache city ai_data in
                match to_float lib (get_or ai_data "crime_index" (JNum 5)) with
                | Py.Raise _ => (cache', fallback)
                | Py.Ok crime_index =>
                    match to_float lib
                            (get_or ai_data "safety_score"
                                    (JNum (10 - crime_index))) with
                    | Py.Raise _ => (cache', fallback)
                    | Py.Ok safety_score =>
                        (cache',
                         RealTime city crime_index safety_score
                           (get_or ai_data "common_crimes" (JArr []))
                           (get_or ai_data "year_trend" (JStr "stable")))
                    end
                end
              else (cache, fallback)
          end
      end
  end.

End DataProcessing.


(** ** [backend/app.py]: the reduction of a request to the model's
    features *)

Module App.

Import ModelTraining.

(** Lines 176-178 of the [/api/predict] handler:
    [for feat in names: if feat not in input_df.columns: input_df[feat] = 0]. *)
Definition ensure_features (names : list string) (input_df : DataFrame)
  : DataFrame :=
  fold_left
    (fun df feat =>
       if negb (Py.dict_mem df feat)
       then Py.dict_set df feat (repeat 0 (n_rows input_df))
       else df)
    names input_df.

(** The column of the feature [n] once the loop has run: the input's own,
    or zeros. *)
Definition zero_filled (df : DataFrame) (n : string) : list R :=
  match Py.dict_find df n with
  | Some c => c
  | None => repeat 0 (n_rows df)
  end.

(** Lines 176-184 of the handler, from the engineered [input_df] on. *)
Definition predict_from_frame (model : HousePriceModel) (input_df : DataFrame)
  : Py.result PredictionResult :=
  match feature_names model with
  | None => Py.Raise (Py.TypeError "'NoneType' object is not iterable")
  | Some names =>
      input_features <- select (ensure_features names input_df) names ;;
      predict model input_features
  end.

(** [/api/cities] *)
Record CityEntry : Type := {
  ce_name : string;
  ce_crime_index : R;
  ce_safety_score : R
}.

(** Insertion into a list sorted by name, ahead of the entries of the same
    name. *)
Fixpoint insert_by_name (x : CityEntry) (l : list CityEntry)
  : list CityEntry :=
  match l with
  | [] => [x]
  | y :: l' =>
      if String.leb (ce_name x) (ce_name y)
      then x :: y :: l'
      else y :: insert_by_name x l'
  end.

(** The order of the sort key [x['name']]. *)
Definition by_name (a b : CityEntry) : Prop :=
  String.leb (ce_name a) (ce_name b) = true.

(** [cities.sort(key=lambda x: x['name'])] *)
Definition sort_by_name (cities : list CityEntry) : list CityEntry :=
  fold_right insert_by_name [] cities.

Definition get_cities : list CityEntry :=
  sort_by_name
    (map (fun cs => {| ce_name := fst cs; ce_crime_index := snd cs;
                       ce_safety_score := 10 - snd cs |})
         (filter (fun cs => negb (String.eqb (fst cs) "Default"))
                 DataProcessing.CITY_CRIME_INDEX)).

(** The unit of a formatted price: crores or lakhs. *)
Inductive PriceUnit : Type := Crore | Lakh.

(** [x >= y] of a float and a number. *)
Definition at_least (x : NumPy.float64) (y : R) : bool :=
  match x with
  | NumPy.Fin v => negb (NumPy.Rltb v y)
  | NumPy.PInf => true
  | NumPy.NInf | NumPy.NaN => false
  end.

(** The ['prediction'] part of the response of [/api/predict]; a formatted
    amount is the unit and the number printed with two decimals. *)
Record PredictionSummary : Type := {
  price : R;
  price_formatted : PriceUnit * R;
  range_lower : NumPy.float64;
  range_upper : NumPy.float64;
  range_formatted : PriceUnit * NumPy.float64 * NumPy.float64;
  price_per_sqft : R;
  confidence_percent : NumPy.float64
}.

(** Lines 186-216 of the handler; [area] is [data.get('area')]. *)
Definition prediction_summary (prediction : PredictionResult)
    (area : option R) : Py.result PredictionSummary :=
  let price := predicted_price prediction in
  let lower := price_lower prediction in
  let upper := price_upper prediction in
  per_sqft <- truediv price (match area with Some a => a | None => 1 end) ;;
  Py.Ok
    {| price := price;
       price_formatted :=
         if NumPy.Rltb price 10000000 then (Lakh, price / 100000)
         else (Crore, price / 10000000);
       range_lower := lower;
       range_upper := upper;
       range_formatted :=
         if at_least upper 10000000
         then (Crore, NumPy.div lower (NumPy.Fin 10000000),
               NumPy.div upper (NumPy.Fin 10000000))
         else (Lakh, NumPy.div lower (NumPy.Fin 100000),
               NumPy.div upper (NumPy.Fin 100000));
       price_per_sqft := per_sqft;
       confidence_percent :=
         NumPy.mul (confidence prediction) (NumPy.Fin 100) |}.

(** The status and the summary that lines 176-227 answer with: any
    exception becomes the status 500. *)
Definition predict_outcome (model : HousePriceModel) (input_df : DataFrame)
    (area : option R) : nat * option PredictionSummary :=
  match predict_from_frame model input_df with
  | Py.Raise _ => (500%nat, None)
  | Py.Ok prediction =>
      match prediction_summary prediction area with
      | Py.Raise _ => (500%nat, None)
      | Py.Ok summary => (200%nat, Some summary)
      end
  end.

End App.


(** ** The statistics of the specification, over the reals *)

Module Stats.

(** The arithmetic mean. *)
Definition average (xs : list R) : R := Py.sum xs / INR (List.length xs).

(** The population standard deviation. *)
Definition pstdev (xs : list R) : R :=
  sqrt (average (map (fun x => (x - average xs) * (x - average xs)) xs)).

(** The absolute percentage error of a row (true price, prediction). *)
Definition percentage_error (tp : R * R) : R :=
  Rabs ((fst tp - snd tp) / fst tp).

(** The rows whose true price is not zero. *)
Definition priced (rows : list (R * R)) : list (R * R) :=
  filter (fun tp => negb (NumPy.Reqb (fst tp) 0)) rows.

End Stats.


(** ** Concrete learners and libraries, for the scenarios below *)

Module Scenario.

Import ModelTraining.

(** A fitted regressor that predicts [a * x + b] from the column [c]. *)
Definition linear_regressor (c : string) (a b : R) : Regressor :=
  {| predict_array :=
       fun X =>
         match Py.dict_find X c with
         | Some col => map (fun v => a * v + b) col
         | None => []
         end;
     feature_importances_ := [1] |}.

Definition squared_error (y_true y_pred : list R) : R :=
  Py.sum (map (fun tp => (fst tp - snd tp) * (fst tp - snd tp))
              (combine y_true y_pred)).

(** The coefficient of determination [1 - SS_res / SS_tot]. *)
Definition r2_formula (y_true y_pred : list R) : R :=
  1 - squared_error y_true y_pred
      / Py.sum (map (fun t => (t - Stats.average y_true)
                              * (t - Stats.average y_true))
                    y_true).

(** A library whose split holds out the first two rows and whose fits
    return the two given regressors. *)
Definition library (xgb lgb : Regressor) : Externals :=
  {| train_test_split :=
       fun X y _ _ =>
         (map (fun nc => (fst nc, skipn 2 (snd nc))) X,
          map (fun nc => (fst nc, firstn 2 (snd nc))) X,
          skipn 2 y, firstn 2 y);
     fit :=
       fun est _ _ =>
         match est with
         | XGBRegressor _ => xgb
         | LGBMRegressor _ => lgb
         end;
     mean_squared_error :=
       fun y_true y_pred =>
         squared_error y_true y_pred / INR (List.length y_true);
     mean_absolute_error :=
       fun y_true y_pred =>
         Py.sum (map (fun tp => Rabs (fst tp - snd tp))
                     (combine y_true y_pred))
         / INR (List.length y_true);
     r2_score := r2_formula;
     now_isoformat := "2024-01-01T00:00:00" |}.

(** Four properties of areas 1, 2, 3, 4 priced at their area. *)
Definition X4 : DataFrame := [("area", [1; 2; 3; 4])].
Definition y4 : list R := [1; 2; 3; 4].

(** Both learners fit the data exactly. *)
Definition exact_library : Externals :=
  library (linear_regressor "area" 1 0) (linear_regressor "area" 1 0).

(** The second learner predicts the held-out prices in reverse. *)
Definition skewed_library : Externals :=
  library (linear_regressor "area" 1 0) (linear_regressor "area" (- 1) 3).

(** The second learner's r2 score is the opposite of the first's. *)
Definition cancelling_library : Externals :=
  library (linear_regressor "area" 1 0) (linear_regressor "area" 2 (- 1)).

(** A loaded model whose blob holds a learner but no weight for it. *)
Definition unweighted_model : HousePriceModel :=
  {| models := [("xgboost", linear_regressor "area" 1 0)];
     weights := [];
     feature_names := Some ["area"];
     metrics := None;
     is_trained := true |}.

(** A loaded model whose blob holds the three learners that
    [get_feature_importance] reads. *)
(** A learner known by its importances only. *)
Definition with_importances (imp : list R) : Regressor :=
  {| predict_array := fun _ => []; feature_importances_ := imp |}.

(** Three learners of which one reports fewer importances. *)
Definition ragged_model : HousePriceModel :=
  {| models := [("xgboost", with_importances [1; 2; 3]);
                ("lightgbm", with_importances [1; 2]);
                ("catboost", with_importances [1; 2; 3])];
     weights := [("xgboost", 1 / 3); ("lightgbm", 1 / 3);
                 ("catboost", 1 / 3)];
     feature_names := Some ["area"; "bedrooms"; "bathrooms"];
     metrics := None;
     is_trained := true |}.

Definition catboost_model : HousePriceModel :=
  {| models := [("xgboost", linear_regressor "area" 1 0);
                ("lightgbm", linear_regressor "area" 1 0);
                ("catboost", linear_regressor "area" 1 0)];
     weights := [("xgboost", 1 / 3); ("lightgbm", 1 / 3);
                 ("catboost", 1 / 3)];
     feature_names := Some ["area"];
     metrics := None;
     is_trained := true |}.

(** An explainer that is set up, attributing 2 to the first feature and
    -1 to the second. *)
Definition ready_explainer : Explainer.ModelExplainer :=
  {| Explainer.model := __init__;
     Explainer.explainer :=
       Some {| Explainer.shap_values := fun _ => [2; - 1];
               Explainer.expected_value := 10 |};
     Explainer.background_data := None |}.

(** SHAP, sampling and neighbour search that answer with fixed values. *)
Definition explainer_library : Explainer.Externals :=
  {| Explainer.tree_explainer :=
       fun _ => {| Explainer.shap_values := fun _ => [2; - 1];
                   Explainer.expected_value := 10 |};
     Explainer.sample := fun X _ _ => X;
     Explainer.kneighbors :=
       fun X_train _ k =>
         if (k <=? 0)%Z
         then Py.Raise (Py.ValueError "Expected n_neighbors > 0")
         else Py.Ok [(0, 1%nat); (1, 0%nat)] |}.

(** A network on which every request times out. *)
Definition offline_library : AiIntegration.Externals :=
  {| AiIntegration.post :=
       fun _ => Py.Raise (Py.ValueError "timed out");
     AiIntegration.loads_object := fun _ => None |}.

(** Python's [str] functions, on city names that are already in title
    case and on strings that are no numbers. *)
Definition plain_strings : DataProcessing.Externals :=
  {| DataProcessing.title := fun s => s;
     DataProcessing.float_of_str := fun _ => None |}.

(** A service that answers every question with a crime index of 7 and no
    safety score. *)
Definition crime_library : AiIntegration.Externals :=
  {| AiIntegration.post :=
       fun _ => Py.Ok {| AiIntegration.status_code := 200;
                         AiIntegration.content :=
                           Py.Ok (AiIntegration.JStr "{crime_index: 7}") |};
     AiIntegration.loads_object :=
       fun _ => Some [("crime_index", AiIntegration.JNum 7)] |}.

(** A service that words the crime index instead of giving a number. *)
Definition vague_library : AiIntegration.Externals :=
  {| AiIntegration.post :=
       fun _ => Py.Ok {| AiIntegration.status_code := 200;
                         AiIntegration.content :=
                           Py.Ok (AiIntegration.JStr "{crime_index: high}") |};
     AiIntegration.loads_object :=
       fun _ => Some [("crime_index", AiIntegration.JStr "high")] |}.

(** A service whose message content is a list of parts, not a text. *)
Definition parts_library : AiIntegration.Externals :=
  {| AiIntegration.post :=
       fun _ => Py.Ok {| AiIntegration.status_code := 200;
                         AiIntegration.content :=
                           Py.Ok (AiIntegration.JArr
                                    [AiIntegration.JStr "{crime_index: 7}"]) |};
     AiIntegration.loads_object :=
       fun _ => Some [("crime_index", AiIntegration.JNum 7)] |}.

End Scenario.

(** * Properties *)

(** ** Real comparisons and NumPy arithmetic on finite values *)

Section NumPyFacts.

Import NumPy.

Lemma Rltb_true (x y : R) : x < y -> Rltb x y = true.
Proof. intros H. unfold Rltb. destruct (Rlt_dec x y); [reflexivity | contradiction]. Qed.

Lemma Rltb_false (x y : R) : y <= x -> Rltb x y = false.
Proof. intros H. unfold Rltb. destruct (Rlt_dec x y); [lra | reflexivity]. Qed.

Lemma Reqb_true (x y : R) : x = y -> Reqb x y = true.
Proof. intros H. unfold Reqb. destruct (Req_dec_T x y); [reflexivity | contradiction]. Qed.

Lemma Reqb_false (x y : R) : x <> y -> Reqb x y = false.
Proof. intros H. unfold Reqb. destruct (Req_dec_T x y); [contradiction | reflexivity]. Qed.


End NumPyFacts.

Ltac real_tests :=
  repeat first
    [ rewrite Reqb_true by lra
    | rewrite Reqb_false by lra
    | rewrite Rltb_true by lra
    | rewrite Rltb_false by lra ].

(** ** Sums, means and deviations of finite values *)

Section FiniteArrays.

Import NumPy.

Lemma fold_add_Fin (xs : list R) (a : R) :
  fold_left add (map Fin xs) (Fin a) = Fin (fold_left Rplus xs a).
Proof.
  revert a. induction xs as [| x xs IH]; intros a; simpl.
  - reflexivity.
  - apply IH.
Qed.

Lemma sum_Fin (xs : list R) : sum (map Fin xs) = Fin (Py.sum xs).
Proof. apply fold_add_Fin. Qed.

Lemma INR_length_pos {A : Type} (xs : list A) :
  xs <> [] -> 0 < INR (List.length xs).
Proof.
  destruct xs as [| x xs]; [congruence |]. intros _.
  apply lt_0_INR. simpl. lia.
Qed.

Lemma mean_Fin (xs : list R) :
  xs <> [] -> mean (map Fin xs) = Fin (Stats.average xs).
Proof.
  intros Hne. unfold mean. rewrite sum_Fin, length_map. simpl.
  rewrite Reqb_false; [reflexivity |].
  pose proof (INR_length_pos xs Hne). lra.
Qed.

Lemma mean_nil : mean [] = NaN.
Proof. unfold mean, sum. simpl. unfold signed_inf. now rewrite Reqb_true. Qed.

Lemma fold_plus_shift (xs : list R) (a : R) :
  fold_left Rplus xs a = a + fold_left Rplus xs 0.
Proof.
  revert a. induction xs as [| x xs IH]; intros a; simpl.
  - lra.
  - rewrite IH, (IH (0 + x)). lra.
Qed.

Lemma sum_cons (x : R) (xs : list R) : Py.sum (x :: xs) = x + Py.sum xs.
Proof. unfold Py.sum. simpl. rewrite fold_plus_shift. lra. Qed.

Lemma sum_nonneg (xs : list R) :
  Forall (fun x => 0 <= x) xs -> 0 <= Py.sum xs.
Proof.
  induction 1 as [| x xs Hx _ IH].
  - unfold Py.sum. simpl. lra.
  - rewrite sum_cons. lra.
Qed.

Lemma average_nonneg (xs : list R) :
  Forall (fun x => 0 <= x) xs -> 0 <= Stats.average xs.
Proof.
  intros H. unfold Stats.average.
  destruct xs as [| x xs].
  - unfold Py.sum. simpl. lra.
  - apply Rmult_le_pos; [now apply sum_nonneg |].
    apply Rlt_le, Rinv_0_lt_compat, INR_length_pos. discriminate.
Qed.

Lemma squares_nonneg (m : R) (xs : list R) :
  Forall (fun x => 0 <= x) (map (fun x => (x - m) * (x - m)) xs).
Proof.
  induction xs as [| x xs IH]; simpl; constructor.
  - apply (Rle_0_sqr (x - m)).
  - exact IH.
Qed.

Lemma std_Fin (xs : list R) :
  xs <> [] -> std (map Fin xs) = Fin (Stats.pstdev xs).
Proof.
  intros Hne. unfold std. rewrite (mean_Fin xs Hne). rewrite map_map.
  change (map (fun x => let d := sub (Fin x) (Fin (Stats.average xs)) in mul d d) xs)
    with (map (fun x => Fin ((x - Stats.average xs) * (x - Stats.average xs))) xs).
  rewrite <- (map_map (fun x => (x - Stats.average xs) * (x - Stats.average xs)) Fin).
  rewrite mean_Fin.
  - simpl. rewrite Rltb_false; [reflexivity |].
    apply average_nonneg, squares_nonneg.
  - destruct xs; [congruence | discriminate].
Qed.

Lemma pstdev_nonneg (xs : list R) : 0 <= Stats.pstdev xs.
Proof. apply sqrt_pos. Qed.

Lemma std_nil : std [] = NaN.
Proof. unfold std. simpl. rewrite mean_nil. reflexivity. Qed.

End FiniteArrays.

(** ** Training: the blend weights *)

Section Training.

Import ModelTraining.

Lemma sum_scaled (xs : list R) (t : R) :
  Py.sum (map (fun x => x / t) xs) = Py.sum xs / t.
Proof.
  induction xs as [| x xs IH]; simpl.
  - unfold Py.sum. simpl. lra.
  - rewrite !sum_cons, IH. lra.
Qed.

Lemma weights_by_total (scores : Py.dict R) (t : R) :
  t <> 0 ->
  Py.mapM (fun nr => w <- truediv (snd nr) t ;; Py.Ok (fst nr, w)) scores
  = Py.Ok (map (fun nr => (fst nr, snd nr / t)) scores).
Proof.
  intros Ht. induction scores as [| [n r] scores IH]; simpl.
  - reflexivity.
  - unfold truediv at 1. rewrite Reqb_false by exact Ht. simpl.
    rewrite IH. reflexivity.
Qed.

Lemma blend_weights_ok (scores : Py.dict R) :
  Py.sum (Py.values scores) <> 0 ->
  blend_weights scores
  = Py.Ok (map (fun nr => (fst nr, snd nr / Py.sum (Py.values scores)))
               scores).
Proof. intros Ht. unfold blend_weights. now apply weights_by_total. Qed.

Lemma blend_weights_zero (scores : Py.dict R) :
  scores <> [] -> Py.sum (Py.values scores) = 0 ->
  blend_weights scores = Py.Raise Py.ZeroDivisionError.
Proof.
  intros Hne Ht. unfold blend_weights. rewrite Ht.
  destruct scores as [| [n r] scores]; [congruence |].
  simpl. unfold truediv. rewrite Reqb_true by reflexivity. reflexivity.
Qed.

Lemma blend_weights_total (scores : Py.dict R) (w : Py.dict R) :
  scores <> [] -> blend_weights scores = Py.Ok w ->
  Py.sum (Py.values scores) <> 0.
Proof.
  intros Hne Hw Ht. rewrite (blend_weights_zero scores Hne Ht) in Hw.
  discriminate.
Qed.

Lemma values_scaled (scores : Py.dict R) (t : R) :
  Py.values (map (fun nr : string * R => (fst nr, snd nr / t)) scores)
  = map (fun x => x / t) (Py.values scores).
Proof. unfold Py.values. rewrite !map_map. reflexivity. Qed.

Lemma held_out_r2_keys (lib : Externals) (X : DataFrame) (y : list R)
    (test_size : R) :
  Py.keys (held_out_r2 lib X y test_size) = ["xgboost"; "lightgbm"].
Proof.
  unfold held_out_r2.
  destruct (train_test_split lib X y test_size 42) as [[[Xtr Xte] ytr] yte].
  reflexivity.
Qed.

Lemma held_out_r2_nonempty (lib : Externals) (X : DataFrame) (y : list R)
    (test_size : R) :
  held_out_r2 lib X y test_size <> [].
Proof.
  intros H. pose proof (held_out_r2_keys lib X y test_size) as K.
  rewrite H in K. discriminate.
Qed.

(** What a completed [train] leaves in the object. *)
Lemma train_ok (lib : Externals) (self self' : HousePriceModel)
    (X : DataFrame) (y : list R) (test_size : R) (rep : TrainingReport) :
  train lib self X y test_size = (self', Py.Ok rep) ->
  is_trained self' = true
  /\ Py.keys (models self') = ["xgboost"; "lightgbm"]
  /\ feature_names self' = Some (columns X)
  /\ blend_weights (held_out_r2 lib X y test_size) = Py.Ok (weights self').
Proof.
  unfold train, held_out_r2.
  destruct (train_test_split lib X y test_size 42) as [[[Xtr Xte] ytr] yte].
  destruct (blend_weights _) as [w | e]; [| discriminate].
  destruct (ensemble_predictions _ _ _ _) as [yp | e]; [| discriminate].
  intros H. injection H as <- _. simpl. auto.
Qed.

Lemma iadd_arrays_same_length (acc b : list R) :
  List.length b = List.length acc ->
  exists sum,
    iadd_arrays acc b = Py.Ok sum /\ List.length sum = List.length acc.
Proof.
  intros H. unfold iadd_arrays. rewrite H, Nat.eqb_refl.
  eexists. split; [reflexivity |].
  rewrite length_map, length_combine, H. apply Nat.min_id.
Qed.

Lemma ensemble_predictions_ok (w : Py.dict R) (fitted : Py.dict Regressor)
    (X_test : DataFrame) (acc : list R) :
  Forall (fun nm => Py.dict_find w (fst nm) <> None
                    /\ List.length (predict_array (snd nm) X_test)
                       = List.length acc)
         fitted ->
  exists y_pred, ensemble_predictions w fitted X_test acc = Py.Ok y_pred.
Proof.
  revert acc. induction fitted as [| [n m] fitted IH]; intros acc H; simpl.
  - eauto.
  - inversion H as [| ? ? [Hw Hl] H']; subst. cbn [fst snd] in Hw, Hl.
    unfold Py.dict_get. destruct (Py.dict_find w n) as [wn |]; [| congruence].
    cbn [Py.bind].
    destruct (iadd_arrays_same_length acc
                (map (Rmult wn) (predict_array m X_test)))
      as (acc' & -> & L); [now rewrite length_map |].
    cbn [Py.bind]. apply IH.
    eapply Forall_impl; [| exact H']. intros nm [Hw' Hl'].
    split; [exact Hw' | congruence].
Qed.

(** [train] completes when the r2 scores do not sum to zero and every
    learner predicts one price per held-out row. *)
Lemma train_completes (lib : Externals) (self : HousePriceModel)
    (X : DataFrame) (y : list R) (test_size : R) :
  Py.sum (Py.values (held_out_r2 lib X y test_size)) <> 0 ->
  (let '(X_train, X_test, y_train, y_test) :=
     train_test_split lib X y test_size 42 in
   Forall (fun nm => List.length (predict_array (snd nm) X_test)
                     = List.length y_test)
          (fit_models lib X_train y_train)) ->
  exists self' rep, train lib self X y test_size = (self', Py.Ok rep).
Proof.
  unfold train, held_out_r2.
  destruct (train_test_split lib X y test_size 42) as [[[Xtr Xte] ytr] yte].
  intros Ht Hlen. rewrite (blend_weights_ok _ Ht).
  match goal with
  | |- context [ensemble_predictions ?w ?f ?x ?acc] =>
      destruct (ensemble_predictions_ok w f x acc) as (y_pred & ->)
  end; [| eauto].
  inversion Hlen as [| ? ? Hx Hlen']; subst.
  inversion Hlen' as [| ? ? Hl _]; subst. cbn [snd] in Hx, Hl.
  repeat (apply Forall_cons;
          [split; [cbn; discriminate
                  | cbn [snd]; rewrite repeat_length; assumption] |]).
  apply Forall_nil.
Qed.

(** ... in which case it raises and leaves the model untrained. *)
Lemma train_zero_total (lib : Externals) (self : HousePriceModel)
    (X : DataFrame) (y : list R) (test_size : R) :
  Py.sum (Py.values (held_out_r2 lib X y test_size)) = 0 ->
  snd (train lib self X y test_size) = Py.Raise Py.ZeroDivisionError
  /\ is_trained (fst (train lib self X y test_size)) = is_trained self.
Proof.
  unfold train. pose proof (held_out_r2_nonempty lib X y test_size) as Hne.
  unfold held_out_r2 in *.
  destruct (train_test_split lib X y test_size 42) as [[[Xtr Xte] ytr] yte].
  intros Ht. rewrite (blend_weights_zero _ Hne Ht). simpl. auto.
Qed.

End Training.

(** ** Scenarios: the held-out r2 scores *)

Ltac entries_eq :=
  repeat match goal with
    | |- (_ :: _) = (_ :: _) => apply f_equal2
    | |- (_, _) = (_, _) => apply f_equal2
    | |- @eq (list _) [] [] => reflexivity
    | |- @eq string _ _ => reflexivity
    | |- @eq R _ _ => lra
    end.

Section ScenarioFacts.

Import ModelTraining Scenario.

Lemma skewed_r2 :
  held_out_r2 skewed_library X4 y4 (2 / 10)
  = [("xgboost", 1); ("lightgbm", - 3)].
Proof.
  unfold held_out_r2, skewed_library, library. cbn.
  unfold r2_formula, squared_error, Stats.average, Py.sum. cbn.
  entries_eq.
Qed.

Lemma exact_r2 :
  held_out_r2 exact_library X4 y4 (2 / 10)
  = [("xgboost", 1); ("lightgbm", 1)].
Proof.
  unfold held_out_r2, exact_library, library. cbn.
  unfold r2_formula, squared_error, Stats.average, Py.sum. cbn.
  entries_eq.
Qed.

Lemma skewed_weights (self' : HousePriceModel) (rep : TrainingReport) :
  train skewed_library __init__ X4 y4 (2 / 10) = (self', Py.Ok rep) ->
  weights self' = [("xgboost", - (1 / 2)); ("lightgbm", 3 / 2)].
Proof.
  intros H. apply train_ok in H as (_ & _ & _ & Hw).
  rewrite skewed_r2 in Hw. rewrite blend_weights_ok in Hw.
  - injection Hw as <-. unfold Py.sum. cbn. entries_eq.
  - unfold Py.sum. cbn. lra.
Qed.

Lemma skewed_train_completes :
  exists self' rep,
    train skewed_library __init__ X4 y4 (2 / 10) = (self', Py.Ok rep).
Proof.
  apply train_completes.
  - rewrite skewed_r2. unfold Py.sum. cbn. lra.
  - cbn. repeat constructor.
Qed.

Lemma exact_train_completes :
  exists self' rep,
    train exact_library __init__ X4 y4 (2 / 10) = (self', Py.Ok rep).
Proof.
  apply train_completes.
  - rewrite exact_r2. unfold Py.sum. cbn. lra.
  - cbn. repeat constructor.
Qed.

End ScenarioFacts.

(** ** C1: the blend weights stored by [train] *)

Section BlendWeights.

Import ModelTraining.

(** C1, as amended.  For every training run that completes, the weights
    stored by [train] are [r2_i / sum r2_j] of the learners' held-out r2
    scores as they are, with no clipping; the scores do not sum to zero, the
    weights sum to 1, and they are all non-negative when every r2 score is
    non-negative. *)
Theorem train_weights_normalized (lib : Externals)
    (self self' : HousePriceModel) (X : DataFrame) (y : list R)
    (test_size : R) (rep : TrainingReport) :
  train lib self X y test_size = (self', Py.Ok rep) ->
  let scores := held_out_r2 lib X y test_size in
  let total := Py.sum (Py.values scores) in
  total <> 0
  /\ weights self' = map (fun nr => (fst nr, snd nr / total)) scores
  /\ Py.sum (Py.values (weights self')) = 1
  /\ (Forall (fun nr => 0 <= snd nr) scores ->
      Forall (fun nw => 0 <= snd nw) (weights self')).
Proof.
  intros H scores total. apply train_ok in H as (_ & _ & _ & Hw).
  fold scores in Hw.
  assert (Ht : total <> 0).
  { eapply blend_weights_total; [apply held_out_r2_nonempty | exact Hw]. }
  rewrite (blend_weights_ok scores Ht) in Hw. injection Hw as <-.
  fold total. repeat split.
  - exact Ht.
  - rewrite values_scaled, sum_scaled. fold total. now field.
  - intros Hpos.
    assert (0 <= total) as Hge.
    { apply sum_nonneg. unfold Py.values. rewrite Forall_map. exact Hpos. }
    rewrite Forall_map. simpl.
    eapply Forall_impl; [| exact Hpos]. simpl. intros [n r] Hr. simpl in *.
    apply Rmult_le_pos; [exact Hr |].
    apply Rlt_le, Rinv_0_lt_compat. lra.
Qed.

Lemma train_weights_normalized_witness :
  exists self' rep,
    train Scenario.skewed_library __init__ Scenario.X4 Scenario.y4 (2 / 10)
    = (self', Py.Ok rep)
    /\ Py.sum (Py.values (weights self')) = 1.
Proof.
  destruct skewed_train_completes as (self' & rep & H).
  exists self', rep. split; [exact H |].
  exact (proj1 (proj2 (proj2
    (train_weights_normalized _ _ _ _ _ _ _ H)))).
Defined.

(** A learner with a negative r2 score makes a stored weight negative. *)
Lemma train_weights_can_be_negative :
  ~ (forall (lib : Externals) (self self' : HousePriceModel) (X : DataFrame)
            (y : list R) (test_size : R) (rep : TrainingReport),
        train lib self X y test_size = (self', Py.Ok rep) ->
        Forall (fun nw => 0 <= snd nw) (weights self')).
Proof.
  intros claim.
  destruct skewed_train_completes as (self' & rep & H).
  pose proof (claim _ _ _ _ _ _ _ H) as Hall.
  rewrite (skewed_weights _ _ H) in Hall.
  inversion Hall as [| ? ? Hneg _]. simpl in Hneg. lra.
Qed.

End BlendWeights.

(** ** C9 and C4: feature importance, and calls on an untrained model *)

Section FeatureImportance.

Import ModelTraining.

Lemma dict_get_absent {V : Type} (d : Py.dict V) (k : string) :
  ~ In k (Py.keys d) -> Py.dict_get d k = Py.Raise (Py.KeyError k).
Proof.
  intros Hk. unfold Py.dict_get.
  replace (Py.dict_find d k) with (@None V); [reflexivity |].
  induction d as [| [k' v] d IH]; simpl in *; [reflexivity |].
  destruct (String.eqb_spec k' k) as [-> | Hne].
  - exfalso. apply Hk. now left.
  - apply IH. intros Hin. apply Hk. now right.
Qed.

Lemma dict_get_present {V : Type} (d : Py.dict V) (k : string) :
  In k (Py.keys d) -> exists v, Py.dict_get d k = Py.Ok v.
Proof.
  unfold Py.dict_get.
  induction d as [| [k' v] d IH]; simpl; [tauto |].
  intros [-> | Hin].
  - rewrite String.eqb_refl. eauto.
  - destruct (String.eqb k' k); eauto.
Qed.

(** C9.  On every model trained by [train], whose learners are exactly
    ['xgboost'] and ['lightgbm'], [get_feature_importance] raises the lookup
    error of the ['catboost'] learner and returns no importance mapping. *)
Theorem feature_importance_raises_after_train (lib : Externals)
    (self self' : HousePriceModel) (X : DataFrame) (y : list R)
    (test_size : R) (rep : TrainingReport) :
  train lib self X y test_size = (self', Py.Ok rep) ->
  Py.keys (models self') = ["xgboost"; "lightgbm"]
  /\ get_feature_importance self' = Py.Raise (Py.KeyError "catboost").
Proof.
  intros H. apply train_ok in H as (Ht & Hk & Hn & _).
  split; [exact Hk |].
  unfold get_feature_importance, importance_dict. rewrite Ht, Hn. simpl.
  destruct (dict_get_present (models self') "xgboost") as [xgb ->].
  { rewrite Hk. simpl. auto. }
  destruct (dict_get_present (models self') "lightgbm") as [lgb ->].
  { rewrite Hk. simpl. auto. }
  simpl. rewrite dict_get_absent; [reflexivity |].
  rewrite Hk. simpl. intros [E | [E | []]]; discriminate.
Qed.

Lemma feature_importance_raises_after_train_witness :
  exists self' rep,
    train Scenario.exact_library __init__ Scenario.X4 Scenario.y4 (2 / 10)
    = (self', Py.Ok rep)
    /\ get_feature_importance self' = Py.Raise (Py.KeyError "catboost").
Proof.
  destruct exact_train_completes as (self' & rep & H).
  exists self', rep. split; [exact H |].
  exact (proj2 (feature_importance_raises_after_train _ _ _ _ _ _ _ H)).
Defined.

(** C4, as amended.  On every model whose trained flag is false, [predict]
    raises the untrained-model error, and [get_feature_importance] returns
    the empty mapping as a normal value; [explain_prediction] does not read
    the flag: after [setup] on a fresh explainer it returns the
    not-set-up error mapping exactly when the model has no ['xgboost']
    learner, as a model that was never trained has none. *)
Theorem untrained_model_calls :
  (forall (self : HousePriceModel) (X : DataFrame),
      is_trained self = false ->
      predict self X = Py.Raise (Py.ValueError "Model not trained yet!")
      /\ get_feature_importance self = Py.Ok [])
  /\ (forall (lib : Explainer.Externals) (self : HousePriceModel)
             (X_train X : DataFrame) (n : nat),
         Explainer.explain_prediction
           (Explainer.setup lib (Explainer.__init__ self) X_train n) X
         = Explainer.ExplainError "Explainer not setup"
         <-> Py.dict_find (models self) "xgboost" = None)
  /\ Py.dict_find (models __init__) "xgboost" = None.
Proof.
  split; [| split].
  - intros self X Hu. unfold predict, get_feature_importance.
    rewrite Hu. simpl. auto.
  - intros lib self X_train X n.
    unfold Explainer.explain_prediction, Explainer.setup. simpl.
    destruct (Py.dict_find (models self) "xgboost") as [xgb |].
    + split; discriminate.
    + split; reflexivity.
  - reflexivity.
Qed.

(** On an untrained model [get_feature_importance] returns normally. *)
Lemma untrained_feature_importance_returns :
  ~ (forall self : HousePriceModel,
        is_trained self = false -> Py.raises (get_feature_importance self)).
Proof.
  intros claim. exact (claim __init__ eq_refl).
Qed.

Lemma untrained_model_calls_witness :
  predict __init__ [] = Py.Raise (Py.ValueError "Model not trained yet!")
  /\ get_feature_importance __init__ = Py.Ok [].
Proof.
  exact (proj1 untrained_model_calls __init__ [] eq_refl).
Defined.

End FeatureImportance.

(** ** C2 and C8: the interval and the confidence of a prediction *)

Section Prediction.

Import ModelTraining.


(** The steps of a [predict] call that returns. *)
Lemma predict_ok_inv (self : HousePriceModel) (X : DataFrame)
    (res : PredictionResult) :
  predict self X = Py.Ok res ->
  exists names X' predictions terms,
    is_trained self = true
    /\ feature_names self = Some names
    /\ select X names = Py.Ok X'
    /\ Py.mapM (fun nm => p <- first (predict_array (snd nm) X') ;;
                          Py.Ok (fst nm, p)) (models self)
       = Py.Ok predictions
    /\ Py.mapM (fun np => w <- Py.dict_get (weights self) (fst np) ;;
                          Py.Ok (w * snd np)) predictions
       = Py.Ok terms
    /\ predicted_price res = Py.sum terms
    /\ model_predictions res = predictions
    /\ let pred_values := map NumPy.Fin (Py.values predictions) in
       let margin := NumPy.mul (NumPy.Fin (196 / 100)) (NumPy.std pred_values) in
       price_lower res = max0 (NumPy.sub (NumPy.Fin (Py.sum terms)) margin)
       /\ price_upper res = NumPy.add (NumPy.Fin (Py.sum terms)) margin
       /\ confidence res =
            if NumPy.gt (NumPy.mean pred_values) (NumPy.Fin 0)
            then NumPy.sub (NumPy.Fin 1)
                   (NumPy.div (NumPy.std pred_values) (NumPy.mean pred_values))
            else NumPy.Fin (8 / 10).
Proof.
  unfold predict, schema.
  destruct (is_trained self); simpl; [| discriminate].
  destruct (feature_names self) as [names |]; simpl; [| discriminate].
  destruct (select X names) as [X' | e] eqn:Hs; simpl; [| discriminate].
  destruct (Py.mapM _ (models self)) as [predictions | e] eqn:Hp; simpl;
    [| discriminate].
  destruct (Py.mapM _ predictions) as [terms | e] eqn:Ht; simpl;
    [| discriminate].
  intros H. injection H as <-. simpl.
  exists names, X', predictions, terms. repeat split; auto.
Qed.







End Prediction.

(** ** Scenarios: predictions of the exactly fitted model *)

Section ScenarioPredictions.

Import ModelTraining Scenario.





End ScenarioPredictions.

Section PredictionScenarios.

Import ModelTraining Scenario.




End PredictionScenarios.

(** ** [predict] returns on a trained model *)

Section PredictReturns.

Import ModelTraining.

(** After a completed [train], [predict] returns on every input that holds
    the schema's features and on which each learner yields a prediction. *)
Lemma predict_returns_after_train (lib : Externals)
    (self self' : HousePriceModel) (X0 X X' : DataFrame) (y : list R)
    (test_size : R) (rep : TrainingReport) :
  train lib self X0 y test_size = (self', Py.Ok rep) ->
  select X (columns X0) = Py.Ok X' ->
  Forall (fun nm => predict_array (snd nm) X' <> []) (models self') ->
  exists res, predict self' X = Py.Ok res.
Proof.
  intros H Hsel Hout.
  pose proof (train_ok _ _ _ _ _ _ _ H) as (Ht & Hk & Hn & Hw).
  assert (Py.keys (weights self') = ["xgboost"; "lightgbm"]) as Hwk.
  { pose proof (blend_weights_total _ _
                  (held_out_r2_nonempty lib X0 y test_size) Hw) as Hnz.
    rewrite (blend_weights_ok _ Hnz) in Hw. injection Hw as <-.
    unfold Py.keys. rewrite map_map. simpl.
    exact (held_out_r2_keys lib X0 y test_size). }
  unfold predict, schema. rewrite Ht, Hn. simpl. rewrite Hsel. simpl.
  destruct (models self') as [| [k1 m1] [| [k2 m2] [| ? ?]]];
    try discriminate.
  injection Hk as -> ->.
  inversion Hout as [| ? ? H1 Hout']; subst.
  inversion Hout' as [| ? ? H2 _]; subst. simpl in H1, H2.
  destruct (weights self') as [| [j1 w1] [| [j2 w2] [| ? ?]]];
    try discriminate.
  injection Hwk as -> ->.
  simpl.
  destruct (predict_array m1 X') as [| p1 ?]; [congruence |].
  destruct (predict_array m2 X') as [| p2 ?]; [congruence |].
  simpl. eauto.
Qed.

End PredictReturns.

(** ** C3: the reduction of an input to the trained schema *)

Section SchemaReduction.

Import ModelTraining.

Lemma dict_find_set_same {V : Type} (d : Py.dict V) (k : string) (v : V) :
  Py.dict_find (Py.dict_set d k v) k = Some v.
Proof.
  induction d as [| [k' v'] d IH]; simpl.
  - now rewrite String.eqb_refl.
  - destruct (String.eqb k' k) eqn:E; simpl; rewrite E; [reflexivity | exact IH].
Qed.

Lemma dict_find_set_other {V : Type} (d : Py.dict V) (k k' : string) (v : V) :
  k <> k' -> Py.dict_find (Py.dict_set d k v) k' = Py.dict_find d k'.
Proof.
  intros Hne. induction d as [| [k0 v0] d IH]; simpl.
  - destruct (String.eqb_spec k k'); [contradiction | reflexivity].
  - destruct (String.eqb_spec k0 k) as [-> | Hk]; simpl.
    + destruct (String.eqb_spec k k'); [contradiction | reflexivity].
    + destruct (String.eqb k0 k'); [reflexivity | exact IH].
Qed.

(** The loop of [ensure_features], with the zero column [z]. *)
Lemma fill_lookup (z : list R) (names : list string) (df : DataFrame)
    (n : string) :
  Py.dict_find
    (fold_left
       (fun df feat =>
          if negb (Py.dict_mem df feat) then Py.dict_set df feat z else df)
       names df) n
  = match Py.dict_find df n with
    | Some c => Some c
    | None => if in_dec string_dec n names then Some z else None
    end.
Proof.
  revert df. induction names as [| f names IH]; intros df; simpl.
  - destruct (Py.dict_find df n); reflexivity.
  - rewrite IH. unfold Py.dict_mem.
    destruct (Py.dict_find df f) as [c |] eqn:Hf; simpl.
    + destruct (Py.dict_find df n) eqn:Hn; [reflexivity |].
      destruct (string_dec f n) as [-> | Hne]; [congruence |].
      destruct (in_dec string_dec n names); reflexivity.
    + destruct (string_dec f n) as [-> | Hne].
      * rewrite dict_find_set_same, Hf. reflexivity.
      * rewrite (dict_find_set_other _ _ _ _ Hne).
        destruct (Py.dict_find df n); [reflexivity |].
        destruct (in_dec string_dec n names); reflexivity.
Qed.

Lemma select_present (X : DataFrame) (names : list string)
    (col : string -> list R) :
  (forall n, In n names -> Py.dict_find X n = Some (col n)) ->
  select X names = Py.Ok (map (fun n => (n, col n)) names).
Proof.
  unfold select. induction names as [| n names IH]; intros H; simpl.
  - reflexivity.
  - unfold Py.dict_get at 1. rewrite (H n) by now left. simpl.
    rewrite IH; [reflexivity |]. intros m Hm. apply H. now right.
Qed.

Lemma select_missing (X : DataFrame) (names : list string) (n : string) :
  In n names -> Py.dict_find X n = None ->
  exists k,
    select X names = Py.Raise (Py.KeyError k)
    /\ In k names /\ Py.dict_find X k = None.
Proof.
  unfold select. induction names as [| f names IH]; intros Hin Hn; simpl.
  - contradiction.
  - unfold Py.dict_get at 1.
    destruct (Py.dict_find X f) as [c |] eqn:Hf; simpl.
    + destruct Hin as [-> | Hin]; [congruence |].
      destruct (IH Hin Hn) as (k & Hk & Hkin & Hkn).
      exists k. rewrite Hk. simpl. auto.
    + exists f. auto.
Qed.

Lemma select_ext (X Y : DataFrame) (names : list string) :
  (forall n, In n names -> Py.dict_find X n = Py.dict_find Y n) ->
  select X names = select Y names.
Proof.
  unfold select. induction names as [| n names IH]; intros H; simpl.
  - reflexivity.
  - unfold Py.dict_get at 1 3. rewrite (H n) by now left.
    rewrite IH; [reflexivity |]. intros m Hm. apply H. now right.
Qed.

Lemma dict_find_tabulated {V : Type} (names : list string)
    (col : string -> V) (n : string) :
  In n names ->
  Py.dict_find (map (fun n => (n, col n)) names) n = Some (col n).
Proof.
  induction names as [| f names IH]; simpl; [tauto |].
  intros Hin. destruct (String.eqb_spec f n) as [-> | Hne]; [reflexivity |].
  destruct Hin as [-> | Hin]; [contradiction | now apply IH].
Qed.

(** C3, as amended.  [HousePriceModel.predict] selects the columns of the
    trained schema from its input, so that fields outside the schema are
    ignored, and raises a lookup error when a schema feature is missing;
    the zero fill is done by the [/api/predict] handler before the call: it
    adds a zero column for each missing schema feature, and the frame it
    passes on holds every schema feature. *)
Theorem predict_schema_reduction :
  (forall (self : HousePriceModel) (X Y : DataFrame) (names : list string),
      feature_names self = Some names ->
      (forall n, In n names -> Py.dict_find X n = Py.dict_find Y n) ->
      predict self X = predict self Y)
  /\ (forall (self : HousePriceModel) (X : DataFrame) (names : list string)
             (n : string),
         is_trained self = true -> feature_names self = Some names ->
         In n names -> Py.dict_find X n = None ->
         exists k,
           predict self X = Py.Raise (Py.KeyError k)
           /\ In k names /\ Py.dict_find X k = None)
  /\ (forall (self : HousePriceModel) (df : DataFrame) (names : list string),
         feature_names self = Some names ->
         let filled := map (fun n => (n, App.zero_filled df n)) names in
         select (App.ensure_features names df) names = Py.Ok filled
         /\ select filled names = Py.Ok filled
         /\ App.predict_from_frame self df = predict self filled).
Proof.
  split; [| split].
  - intros self X Y names Hn Hxy. unfold predict, schema. rewrite Hn. simpl.
    rewrite (select_ext X Y names Hxy). reflexivity.
  - intros self X names n Ht Hn Hin Hx.
    destruct (select_missing X names n Hin Hx) as (k & Hk & Hkin & Hkn).
    exists k. unfold predict, schema. rewrite Ht, Hn. simpl. rewrite Hk.
    simpl. auto.
  - intros self df names Hn filled.
    assert (select (App.ensure_features names df) names = Py.Ok filled) as H1.
    { apply (select_present _ names (App.zero_filled df)). intros n Hin.
      unfold App.ensure_features. rewrite fill_lookup. unfold App.zero_filled.
      destruct (Py.dict_find df n); [reflexivity |].
      destruct (in_dec string_dec n names); [reflexivity | contradiction]. }
    split; [exact H1 |]. split.
    + apply (select_present filled names (App.zero_filled df)). intros n Hin.
      now apply dict_find_tabulated.
    + unfold App.predict_from_frame. rewrite Hn, H1. reflexivity.
Qed.

End SchemaReduction.

Section SchemaScenarios.

Import ModelTraining Scenario.

(** On an input without the ['area'] feature, [predict] of a trained model
    raises instead of filling in a zero. *)
Lemma predict_raises_on_missing_feature :
  ~ (forall (self : HousePriceModel) (X : DataFrame),
        is_trained self = true -> ~ Py.raises (predict self X)).
Proof.
  intros claim.
  destruct exact_train_completes as (self' & rep & H).
  apply train_ok in H as (Ht & _ & Hn & _).
  apply (claim self' [("garden", [1])] Ht).
  unfold predict, schema. rewrite Ht, Hn. simpl. exact I.
Qed.

Lemma predict_schema_reduction_witness :
  exists self',
    is_trained self' = true
    /\ exists k,
         predict self' [("garden", [1])] = Py.Raise (Py.KeyError k)
         /\ In k ["area"] /\ Py.dict_find [("garden", [1])] k = None.
Proof.
  destruct exact_train_completes as (self' & rep & H).
  apply train_ok in H as (Ht & _ & Hn & _).
  exists self'. split; [exact Ht |].
  exact (proj1 (proj2 predict_schema_reduction) self' [("garden", [1])]
           ["area"] "area" Ht Hn (or_introl eq_refl) eq_refl).
Defined.

End SchemaScenarios.

(** ** C5 and C10: the market comparison *)

Section MarketComparison.

Import Explainer.




Lemma mean_of_zero : NumPy.mean (map NumPy.Fin [0]) = NumPy.Fin 0.
Proof.
  rewrite mean_Fin by discriminate. f_equal.
  unfold Stats.average, Py.sum. simpl. lra.
Qed.

(** C10.  Some non-empty list of similar prices, such as [[0.0]], has a
    zero mean and passes the empty-list check, the only guard, so that
    [compare_to_market] divides the difference by zero: the percentage it
    returns is the quotient by zero times 100, an infinity or [nan]. *)
Theorem compare_to_market_divides_by_zero_mean :
  exists prices : list R,
    prices <> []
    /\ NumPy.mean (map NumPy.Fin prices) = NumPy.Fin 0
    /\ forall p : R,
         let c := compare_to_market p prices in
         avg_similar_price c = Some (NumPy.Fin 0)
         /\ difference_pct c
            = NumPy.mul (NumPy.div (NumPy.Fin (p - 0)) (NumPy.Fin 0))
                        (NumPy.Fin 100)
         /\ NumPy.is_finite (difference_pct c) = false
         /\ (0 < p -> difference_pct c = NumPy.PInf /\ status c = overpriced)
         /\ (p < 0 -> difference_pct c = NumPy.NInf /\ status c = underpriced)
         /\ (p = 0 -> difference_pct c = NumPy.NaN /\ status c = fair).
Proof.
  exists [0]. split; [discriminate |]. split; [exact mean_of_zero |].
  intros p c. subst c. unfold compare_to_market.
  rewrite mean_of_zero. unfold pct_diff. simpl.
  rewrite (Reqb_true 0 0) by reflexivity. unfold NumPy.signed_inf.
  destruct (Rtotal_order p 0) as [Hneg | [Hz | Hpos]];
    repeat (simpl; unfold NumPy.signed_inf; real_tests);
    repeat split; try reflexivity; intros; try lra.
Qed.

End MarketComparison.

(** ** C6: the similarity score *)

Section Similarity.

Import Explainer.

Lemma similarity_score_finite (d : R) :
  0 <= d -> similarity_score d = NumPy.Fin (1 / (1 + d)).
Proof.
  intros Hd. unfold similarity_score. simpl. now rewrite Reqb_false by lra.
Qed.

(** Every entry of the result carries the score of its own distance. *)
Lemma similar_entries_scores (X_train : ModelTraining.DataFrame)
    (y_train : list R) (neighbours : list (R * nat)) :
  forall (i : nat) (entries : list Similar),
    similar_entries X_train y_train i neighbours = Py.Ok entries ->
    map score entries
    = map (fun nb => similarity_score (fst nb)) neighbours.
Proof.
  induction neighbours as [| [dist idx] rest IH]; intros i entries; simpl.
  - intros H. injection H as <-. reflexivity.
  - destruct (iloc y_train idx) as [p | e]; simpl; [| discriminate].
    destruct (row_dict X_train idx) as [f | e]; simpl; [| discriminate].
    destruct (similar_entries X_train y_train (S i) rest) as [more | e] eqn:E;
      simpl; [| discriminate].
    intros H. injection H as <-. simpl. f_equal. exact (IH _ _ E).
Qed.

(** C6, as amended.  The score that [get_similar_properties] gives a
    neighbour at distance [d] is [1 / (1 + d)]: for every non-negative
    distance it lies in (0, 1], it is 1 at distance 0, and it is not
    larger at a larger distance. *)
Theorem similarity_score_range (d : R) :
  0 <= d ->
  (forall (lib : Externals) (X_train input : ModelTraining.DataFrame)
          (y_train : list R) (n : Z) (entries : list Similar),
      get_similar_properties lib X_train y_train input n = Py.Ok entries ->
      exists neighbours,
        kneighbors lib X_train input
          (Z.min n (Z.of_nat (ModelTraining.n_rows X_train)))
        = Py.Ok neighbours
        /\ map score entries
           = map (fun nb => similarity_score (fst nb)) neighbours)
  /\ exists s,
       similarity_score d = NumPy.Fin s
       /\ s = 1 / (1 + d)
       /\ 0 < s <= 1
       /\ (d = 0 -> s = 1)
       /\ forall d', d <= d' ->
            exists s', similarity_score d' = NumPy.Fin s' /\ s' <= s.
Proof.
  intros Hd. split.
  - intros lib X_train input y_train n entries H.
    unfold get_similar_properties in H.
    destruct (kneighbors lib X_train input _) as [nbs | e]; simpl in H;
      [| discriminate].
    exists nbs. split; [reflexivity |].
    exact (similar_entries_scores _ _ _ _ _ H).
  - exists (1 / (1 + d)). split; [now apply similarity_score_finite |].
    split; [reflexivity |].
    assert (0 < 1 + d) as Hpos by lra.
    assert (0 < 1 / (1 + d)) as Hs.
    { unfold Rdiv. rewrite Rmult_1_l. now apply Rinv_0_lt_compat. }
    assert (1 / (1 + d) * (1 + d) = 1) as Hmul by (field; lra).
    split; [split; [exact Hs | nra] |]. split.
    + intros ->. field.
    + intros d' Hle. exists (1 / (1 + d')).
      split; [apply similarity_score_finite; lra |].
      unfold Rdiv. rewrite !Rmult_1_l.
      apply Rinv_le_contravar; lra.
Qed.

Lemma similarity_score_range_witness :
  exists s,
    similarity_score 1 = NumPy.Fin s /\ s = 1 / (1 + 1) /\ 0 < s <= 1.
Proof.
  destruct (proj2 (similarity_score_range 1 Rle_0_1)) as (s & H1 & H2 & H3 & _).
  exists s. auto.
Defined.

(** On binary64 numbers the score of the non-zero distance [2^-60] is
    exactly 1: the score is not 1 at distance 0 only. *)
Lemma similarity_score_ties :
  ~ (forall d d' : float,
        PrimFloat.leb 0 d = true -> PrimFloat.ltb d d' = true ->
        PrimFloat.is_finite d' = true ->
        (PrimFloat.eqb (similarity_score_binary64 d) 1 = true ->
         PrimFloat.eqb d 0 = true)
        /\ PrimFloat.ltb (similarity_score_binary64 d')
                         (similarity_score_binary64 d) = true).
Proof.
  intros claim.
  destruct (claim 0x1p-60%float 1%float eq_refl eq_refl eq_refl) as [H _].
  specialize (H eq_refl). vm_compute in H. discriminate.
Qed.

(** ... and the distance 1 and the next binary64 number above it get the
    same score: the score is not strictly decreasing. *)
Lemma similarity_score_adjacent_distances :
  PrimFloat.ltb 1 (PrimFloat.next_up 1) = true
  /\ similarity_score_binary64 (PrimFloat.next_up 1)
     = similarity_score_binary64 1.
Proof. split; reflexivity. Qed.

End Similarity.

(** ** C7: the percentage error of an evaluation *)

Section PercentageError.

Import ModelTraining.

Import Stats.

Lemma entry_priced (tp : R * R) :
  fst tp <> 0 -> NumPy.abs (relative_error tp) = NumPy.Fin (percentage_error tp).
Proof.
  intros H. unfold relative_error, percentage_error. simpl. now rewrite Reqb_false by exact H.
Qed.

Lemma entry_zero_over_zero (tp : R * R) :
  fst tp = 0 -> snd tp = 0 -> NumPy.abs (relative_error tp) = NumPy.NaN.
Proof.
  intros Ht Hp. unfold relative_error. rewrite Ht, Hp. simpl.
  rewrite Reqb_true by reflexivity. unfold NumPy.signed_inf.
  now rewrite Reqb_true by lra.
Qed.

Lemma entry_error_over_zero (tp : R * R) :
  fst tp = 0 -> snd tp <> 0 -> NumPy.abs (relative_error tp) = NumPy.PInf.
Proof.
  intros Ht Hp. unfold relative_error. rewrite Ht. simpl.
  rewrite Reqb_true by reflexivity. unfold NumPy.signed_inf.
  rewrite Reqb_false by lra.
  destruct (NumPy.Rltb 0 (0 - snd tp)); reflexivity.
Qed.

Lemma entry_cases (tp : R * R) :
  NumPy.abs (relative_error tp) = NumPy.NaN \/ NumPy.abs (relative_error tp) = NumPy.PInf
  \/ exists r, NumPy.abs (relative_error tp) = NumPy.Fin r.
Proof.
  destruct (Req_dec_T (fst tp) 0) as [Ht | Ht].
  - destruct (Req_dec_T (snd tp) 0) as [Hp | Hp].
    + left. now apply entry_zero_over_zero.
    + right. left. now apply entry_error_over_zero.
  - right. right. eexists. now apply entry_priced.
Qed.

(** Without an error over a zero price, the entries that the mean keeps
    are the finite errors of the priced rows. *)
Lemma kept_entries_finite (zs : list (R * R)) :
  Forall (fun tp => fst tp = 0 -> snd tp = 0) zs ->
  filter (fun a => negb (Pandas.is_nan a)) (map NumPy.abs (map relative_error zs))
  = map NumPy.Fin (map percentage_error (priced zs)).
Proof.
  induction 1 as [| tp zs Htp _ IH]; simpl; [reflexivity |].
  destruct (Req_dec_T (fst tp) 0) as [Ht | Ht].
  - rewrite (entry_zero_over_zero tp Ht (Htp Ht)). simpl.
    rewrite Reqb_true by exact Ht. simpl. exact IH.
  - rewrite (entry_priced tp Ht). simpl.
    rewrite Reqb_false by exact Ht. simpl. now rewrite IH.
Qed.

Lemma kept_entries_shape (zs : list (R * R)) :
  Forall (fun a => a = NumPy.PInf \/ NumPy.is_finite a = true)
         (filter (fun a => negb (Pandas.is_nan a)) (map NumPy.abs (map relative_error zs))).
Proof.
  induction zs as [| tp zs IH]; simpl; [constructor |].
  destruct (entry_cases tp) as [E | [E | [r E]]]; rewrite E; simpl.
  - exact IH.
  - constructor; [now left | exact IH].
  - constructor; [now right | exact IH].
Qed.

Lemma kept_entries_infinite (zs : list (R * R)) :
  Exists (fun tp => fst tp = 0 /\ snd tp <> 0) zs ->
  In NumPy.PInf (filter (fun a => negb (Pandas.is_nan a)) (map NumPy.abs (map relative_error zs))).
Proof.
  induction 1 as [tp zs [Ht Hp] | tp zs _ IH]; simpl.
  - rewrite (entry_error_over_zero tp Ht Hp). simpl. now left.
  - destruct (Pandas.is_nan (NumPy.abs (relative_error tp))); simpl; [exact IH | now right].
Qed.

Lemma fold_add_infinite (xs : list NumPy.float64) :
  forall acc : NumPy.float64,
    Forall (fun a => a = NumPy.PInf \/ NumPy.is_finite a = true) xs ->
    acc = NumPy.PInf \/ (NumPy.is_finite acc = true /\ In NumPy.PInf xs) ->
    fold_left NumPy.add xs acc = NumPy.PInf.
Proof.
  induction xs as [| x xs IH]; intros acc Hxs Hacc; simpl.
  - destruct Hacc as [E | [_ []]]. exact E.
  - inversion Hxs as [| ? ? Hx Hxs']; subst. apply IH; [exact Hxs' |].
    destruct Hacc as [-> | [Hfin [-> | Hin]]].
    + left. destruct Hx as [-> | Hx]; [reflexivity |].
      destruct x; try discriminate. reflexivity.
    + left. destruct acc; try discriminate. reflexivity.
    + destruct Hx as [-> | Hx].
      * left. destruct acc; try discriminate. reflexivity.
      * right. split; [| exact Hin].
        destruct acc, x; try discriminate. reflexivity.
Qed.

(** C7, as amended.  The mape of an evaluation is
    [mean(|(y_true - y_pred) / y_true|) * 100] with no guard on the
    division.  A zero true price with a non-zero prediction makes the
    metric infinite.  Otherwise the rows with a zero true price are
    [0 / 0 = nan], which the mean of the series skips, and the metric is
    the finite mean over the rows with a non-zero true price, times 100,
    or [nan] when there is no such row. *)
Theorem mape_has_no_zero_guard (lib : Externals) (y_true y_pred : list R) :
  List.length y_true = List.length y_pred ->
  let rows := combine y_true y_pred in
  (Exists (fun tp => fst tp = 0 /\ snd tp <> 0) rows ->
   mape (_calculate_metrics lib y_true y_pred) = NumPy.PInf)
  /\ (Forall (fun tp => fst tp = 0 -> snd tp = 0) rows ->
      (priced rows <> [] ->
       mape (_calculate_metrics lib y_true y_pred)
       = NumPy.Fin (Stats.average (map percentage_error (priced rows)) * 100))
      /\ (priced rows = [] ->
          mape (_calculate_metrics lib y_true y_pred) = NumPy.NaN))
  /\ (~ In 0 y_true -> priced rows = rows).
Proof.
  intros Hlen rows. simpl. unfold relative_errors. fold rows.
  unfold Pandas.mean, NumPy.sum. split; [| split].
  - intros Hex.
    rewrite (fold_add_infinite _ (NumPy.Fin 0) (kept_entries_shape rows)).
    + simpl. rewrite Rltb_false by apply pos_INR. simpl.
      unfold NumPy.signed_inf. real_tests. reflexivity.
    + right. split; [reflexivity | now apply kept_entries_infinite].
  - intros Hall. rewrite (kept_entries_finite rows Hall).
    change (NumPy.div _ _)
      with (NumPy.mean (map NumPy.Fin (map percentage_error (priced rows)))).
    split.
    + intros Hne. rewrite mean_Fin; [reflexivity |].
      destruct (priced rows); [congruence | discriminate].
    + intros ->. simpl. now rewrite mean_nil.
  - intros Hnz. unfold priced. apply forallb_filter_id.
    apply forallb_forall. intros [t p] Hin. simpl.
    rewrite Reqb_false; [reflexivity |].
    intros ->. apply Hnz. eapply in_combine_l. exact Hin.
Qed.

Lemma mape_has_no_zero_guard_witness :
  mape (_calculate_metrics Scenario.exact_library [0] [1]) = NumPy.PInf.
Proof.
  destruct (mape_has_no_zero_guard Scenario.exact_library [0] [1] eq_refl)
    as [Hinf _].
  apply Hinf. left. simpl. split; [reflexivity | lra].
Defined.

(** One zero true price with a non-zero prediction makes the metric
    infinite. *)
Lemma mape_infinite_on_zero_price :
  ~ (forall (lib : Externals) (y_true y_pred : list R),
        List.length y_true = List.length y_pred -> In 0 y_true ->
        NumPy.is_finite (mape (_calculate_metrics lib y_true y_pred)) = true).
Proof.
  intros claim.
  pose proof (claim Scenario.exact_library [0] [1] eq_refl
                (or_introl eq_refl)) as H.
  revert H. simpl. unfold Pandas.mean, NumPy.sum, relative_error. simpl.
  repeat (simpl; unfold NumPy.signed_inf; real_tests).
  discriminate.
Qed.

(** A zero true price that is predicted exactly is skipped: the metric of
    the true prices 0 and 2 predicted as 0 and 1 is 50. *)
Example mape_skips_zero_over_zero :
  mape (_calculate_metrics Scenario.exact_library [0; 2] [0; 1])
  = NumPy.Fin 50.
Proof.
  simpl. unfold Pandas.mean, NumPy.sum, relative_error. simpl.
  repeat (simpl; unfold NumPy.signed_inf; real_tests).
  f_equal. rewrite Rabs_right by lra. lra.
Qed.

End PercentageError.

(** ** Scenarios of the specification *)

Section SpecificationScenarios.

Import Explainer.



(** Held-out r2 scores of 0.9 and 0.7 give the weights 0.5625 and 0.4375. *)
Example blend_weights_scenario :
  ModelTraining.blend_weights [("xgboost", 9 / 10); ("lightgbm", 7 / 10)]
  = Py.Ok [("xgboost", 5625 / 10000); ("lightgbm", 4375 / 10000)].
Proof.
  rewrite blend_weights_ok.
  - unfold Py.sum. cbn. f_equal. entries_eq.
  - unfold Py.sum. cbn. lra.
Qed.

(** Two learners predicting 5,000,000 and 5,200,000 have a dispersion of
    100,000, half their gap. *)
Example dispersion_scenario :
  NumPy.std (map NumPy.Fin [5000000; 5200000]) = NumPy.Fin 100000.
Proof.
  rewrite std_Fin by discriminate. f_equal.
  unfold Stats.pstdev. apply sqrt_lem_1.
  - apply average_nonneg, squares_nonneg.
  - lra.
  - unfold Stats.average, Py.sum. simpl. lra.
Qed.

End SpecificationScenarios.

(** * Further properties of the code *)

(** ** Failed training and the training report *)

Section TrainingOutcome.

Import ModelTraining.

Lemma cancelling_r2 :
  held_out_r2 Scenario.cancelling_library Scenario.X4 Scenario.y4 (2 / 10)
  = [("xgboost", 1); ("lightgbm", - 1)].
Proof.
  unfold held_out_r2, Scenario.cancelling_library, Scenario.library. cbn.
  unfold Scenario.r2_formula, Scenario.squared_error, Stats.average, Py.sum.
  cbn. entries_eq.
Qed.

(** When the held-out r2 scores sum to zero, [train] raises
    [ZeroDivisionError] after it has replaced the learners and the schema:
    the trained flag, the weights and the metrics stay as they were, so an
    object that was trained before keeps its flag and its old weights beside
    the new learners. *)
Theorem train_failure_state (lib : Externals) (self : HousePriceModel)
    (X : DataFrame) (y : list R) (test_size : R) :
  Py.sum (Py.values (held_out_r2 lib X y test_size)) = 0 ->
  let self' := fst (train lib self X y test_size) in
  snd (train lib self X y test_size) = Py.Raise Py.ZeroDivisionError
  /\ is_trained self' = is_trained self
  /\ weights self' = weights self
  /\ metrics self' = metrics self
  /\ feature_names self' = Some (columns X)
  /\ Py.keys (models self') = ["xgboost"; "lightgbm"].
Proof.
  unfold train. pose proof (held_out_r2_nonempty lib X y test_size) as Hne.
  unfold held_out_r2 in *.
  destruct (train_test_split lib X y test_size 42) as [[[Xtr Xte] ytr] yte].
  intros Ht. rewrite (blend_weights_zero _ Hne Ht). simpl. auto 10.
Qed.

Lemma train_failure_state_witness :
  snd (train Scenario.cancelling_library __init__ Scenario.X4 Scenario.y4
         (2 / 10))
  = Py.Raise Py.ZeroDivisionError
  /\ is_trained
       (fst (train Scenario.cancelling_library __init__ Scenario.X4
               Scenario.y4 (2 / 10)))
     = false.
Proof.
  assert (Py.sum (Py.values
            (held_out_r2 Scenario.cancelling_library Scenario.X4 Scenario.y4
               (2 / 10))) = 0) as Hz.
  { rewrite cancelling_r2. unfold Py.sum. cbn. lra. }
  destruct (train_failure_state Scenario.cancelling_library __init__
              Scenario.X4 Scenario.y4 (2 / 10) Hz) as (Hr & Ht & _).
  split; [exact Hr | exact Ht].
Defined.



End TrainingOutcome.

(** ** Predictions of a model produced by [train] *)

Section TrainedPredictions.

Import ModelTraining.

(** The two learners and their weights after a completed [train]. *)
Lemma trained_shape (lib : Externals) (self self' : HousePriceModel)
    (X : DataFrame) (y : list R) (test_size : R) (rep : TrainingReport) :
  train lib self X y test_size = (self', Py.Ok rep) ->
  exists m1 m2 r1 r2 : _,
    models self' = [("xgboost", m1); ("lightgbm", m2)]
    /\ held_out_r2 lib X y test_size = [("xgboost", r1); ("lightgbm", r2)]
    /\ r1 + r2 <> 0
    /\ weights self'
       = [("xgboost", r1 / (r1 + r2)); ("lightgbm", r2 / (r1 + r2))]
    /\ is_trained self' = true.
Proof.
  intros H.
  pose proof (train_ok _ _ _ _ _ _ _ H) as (Ht & Hk & _ & Hw).
  pose proof (held_out_r2_keys lib X y test_size) as Hrk.
  destruct (models self') as [| [k1 m1] [| [k2 m2] [| ? ?]]];
    try discriminate.
  injection Hk as -> ->.
  destruct (held_out_r2 lib X y test_size)
    as [| [j1 r1] [| [j2 r2] [| ? ?]]] eqn:Hr; try discriminate.
  injection Hrk as -> ->.
  assert (Py.sum (Py.values [("xgboost", r1); ("lightgbm", r2)]) = r1 + r2)
    as Hs by (unfold Py.sum; simpl; lra).
  assert (r1 + r2 <> 0) as Hnz.
  { rewrite <- Hs. eapply blend_weights_total; [discriminate | exact Hw]. }
  rewrite blend_weights_ok in Hw by (rewrite Hs; exact Hnz).
  rewrite Hs in Hw. injection Hw as <-.
  exists m1, m2, r1, r2. simpl. auto.
Qed.









End TrainedPredictions.

(** ** The errors of [predict] and of [get_feature_importance] *)

Section ModelErrors.

Import ModelTraining.

Lemma first_outputs_fail (X' : DataFrame) (ms : Py.dict Regressor) :
  Exists (fun nm => predict_array (snd nm) X' = []) ms ->
  Py.mapM (fun nm => p <- first (predict_array (snd nm) X') ;;
                     Py.Ok (fst nm, p)) ms
  = Py.Raise Py.IndexError.
Proof.
  induction 1 as [nm ms Hnm | nm ms _ IH]; simpl.
  - rewrite Hnm. reflexivity.
  - destruct (first (predict_array (snd nm) X')) as [p | e] eqn:E; simpl.
    + rewrite IH. reflexivity.
    + destruct (predict_array (snd nm) X'); [| discriminate].
      injection E as <-. reflexivity.
Qed.

Lemma first_outputs_ok (X' : DataFrame) (ms : Py.dict Regressor) :
  Forall (fun nm => predict_array (snd nm) X' <> []) ms ->
  exists ps,
    Py.mapM (fun nm => p <- first (predict_array (snd nm) X') ;;
                       Py.Ok (fst nm, p)) ms
    = Py.Ok ps
    /\ Py.keys ps = Py.keys ms.
Proof.
  induction 1 as [| nm ms Hnm _ (ps & IH & Hk)]; simpl.
  - exists []. auto.
  - destruct (predict_array (snd nm) X') as [| p rest]; [congruence |].
    simpl. rewrite IH. simpl. exists ((fst nm, p) :: ps). split; [reflexivity |].
    simpl. now rewrite Hk.
Qed.

Lemma weighted_terms_fail (w : Py.dict R) (ps : Py.dict R) :
  Exists (fun np => ~ In (fst np) (Py.keys w)) ps ->
  exists k,
    Py.mapM (fun np => wn <- Py.dict_get w (fst np) ;; Py.Ok (wn * snd np)) ps
    = Py.Raise (Py.KeyError k)
    /\ In k (Py.keys ps) /\ ~ In k (Py.keys w).
Proof.
  induction 1 as [np ps Hnp | np ps _ (k & IH & Hk & Hw)]; simpl.
  - exists (fst np). rewrite (dict_get_absent w (fst np) Hnp). simpl. auto.
  - destruct (Py.dict_get w (fst np)) as [wn | e] eqn:E; simpl.
    + exists k. rewrite IH. simpl. auto.
    + unfold Py.dict_get in E.
      destruct (Py.dict_find w (fst np)) eqn:F; [discriminate |].
      injection E as <-. exists (fst np). split; [reflexivity |].
      split; [now left |]. intros Hin.
      destruct (dict_get_present w (fst np) Hin) as [v Hv].
      unfold Py.dict_get in Hv. rewrite F in Hv. discriminate.
Qed.

Lemma weighted_terms_ok (w : Py.dict R) (ps : Py.dict R) :
  Forall (fun np => In (fst np) (Py.keys w)) ps ->
  exists terms,
    Py.mapM (fun np => wn <- Py.dict_get w (fst np) ;; Py.Ok (wn * snd np)) ps
    = Py.Ok terms.
Proof.
  induction 1 as [| np ps Hnp _ (terms & IH)]; simpl.
  - eauto.
  - destruct (dict_get_present w (fst np) Hnp) as [wn ->]. simpl.
    rewrite IH. simpl. eauto.
Qed.

(** Once the model is trained and the input holds the schema's features,
    [predict] raises [IndexError] if some learner returns no prediction,
    else the [KeyError] of a learner that has no weight, and returns a
    result exactly when every learner yields a prediction and has a
    weight. *)
Theorem predict_error_order (self : HousePriceModel) (X X' : DataFrame)
    (names : list string) :
  is_trained self = true ->
  feature_names self = Some names ->
  select X names = Py.Ok X' ->
  (Exists (fun nm => predict_array (snd nm) X' = []) (models self) ->
   predict self X = Py.Raise Py.IndexError)
  /\ (Forall (fun nm => predict_array (snd nm) X' <> []) (models self) ->
      Exists (fun nm => ~ In (fst nm) (Py.keys (weights self))) (models self) ->
      exists k,
        predict self X = Py.Raise (Py.KeyError k)
        /\ In k (Py.keys (models self))
        /\ ~ In k (Py.keys (weights self)))
  /\ (Forall (fun nm => predict_array (snd nm) X' <> []) (models self) ->
      Forall (fun nm => In (fst nm) (Py.keys (weights self))) (models self) ->
      exists res, predict self X = Py.Ok res).
Proof.
  intros Ht Hn Hs. unfold predict, schema. rewrite Ht, Hn. simpl.
  rewrite Hs. simpl. split; [| split].
  - intros Hex. rewrite (first_outputs_fail X' _ Hex). reflexivity.
  - intros Hall Hex.
    destruct (first_outputs_ok X' _ Hall) as (ps & -> & Hk). simpl.
    assert (Exists (fun np => ~ In (fst np) (Py.keys (weights self))) ps)
      as Hex'.
    { apply Exists_exists in Hex as ([n m] & Hin & Hw). simpl in Hw.
      assert (In n (Py.keys ps)) as Hnk
        by (rewrite Hk; apply in_map_iff; exists (n, m); auto).
      apply in_map_iff in Hnk as ([n' p] & E & Hp). simpl in E. subst n'.
      apply Exists_exists. exists (n, p). auto. }
    destruct (weighted_terms_fail _ _ Hex') as (k & -> & Hkp & Hkw).
    exists k. simpl. rewrite <- Hk. auto.
  - intros Hall Hw.
    destruct (first_outputs_ok X' _ Hall) as (ps & -> & Hk). simpl.
    assert (Forall (fun np => In (fst np) (Py.keys (weights self))) ps)
      as Hw'.
    { apply Forall_forall. intros [n p] Hin. simpl.
      assert (In n (Py.keys (models self))) as Hnk
        by (rewrite <- Hk; apply in_map_iff; exists (n, p); auto).
      apply in_map_iff in Hnk as ([n' m] & E & Hm). simpl in E. subst n'.
      rewrite Forall_forall in Hw. exact (Hw (n, m) Hm). }
    destruct (weighted_terms_ok _ _ Hw') as (terms & ->). simpl. eauto.
Qed.

Lemma predict_error_order_witness :
  exists k,
    predict Scenario.unweighted_model [("area", [3])]
    = Py.Raise (Py.KeyError k)
    /\ In k ["xgboost"].
Proof.
  destruct (predict_error_order Scenario.unweighted_model [("area", [3])]
              [("area", [3])] ["area"] eq_refl eq_refl eq_refl)
    as (_ & Hkey & _).
  destruct Hkey as (k & Hk & Hin & _).
  - repeat constructor. simpl. discriminate.
  - apply Exists_cons_hd. simpl. tauto.
  - exists k. split; [exact Hk | exact Hin].
Defined.

End ModelErrors.

(** ** Feature importances of a model with the three learners *)

Section ImportanceAverage.

Import ModelTraining.

Lemma dict_set_append {V : Type} (d : Py.dict V) (k : string) (v : V) :
  ~ In k (Py.keys d) -> Py.dict_set d k v = (d ++ [(k, v)])%list.
Proof.
  induction d as [| [k' v'] d IH]; simpl; intros Hk; [reflexivity |].
  destruct (String.eqb_spec k' k) as [-> | Hne].
  - exfalso. apply Hk. now left.
  - f_equal. apply IH. intros Hin. apply Hk. now right.
Qed.

Lemma dict_of_from {V : Type} (pairs acc : Py.dict V) :
  NoDup (Py.keys (acc ++ pairs)%list) ->
  fold_left (fun d kv => Py.dict_set d (fst kv) (snd kv)) pairs acc
  = (acc ++ pairs)%list.
Proof.
  revert acc. induction pairs as [| [k v] pairs IH]; intros acc Hnd; simpl.
  - now rewrite app_nil_r.
  - assert (~ In k (Py.keys acc)) as Hk.
    { unfold Py.keys in *. rewrite map_app in Hnd. simpl in Hnd.
      apply NoDup_remove_2 in Hnd. intros Hin. apply Hnd.
      apply in_or_app. now left. }
    rewrite (dict_set_append acc k v Hk).
    rewrite IH; rewrite <- app_assoc; [reflexivity | exact Hnd].
Qed.

(** A [dict] built from pairs with distinct keys holds the pairs, in
    order. *)
Lemma dict_of_distinct {V : Type} (pairs : Py.dict V) :
  NoDup (Py.keys pairs) -> Py.dict_of pairs = pairs.
Proof. intros H. unfold Py.dict_of. now rewrite dict_of_from. Qed.

Lemma combine_keys {V : Type} (names : list string) (vals : list V) :
  List.length vals = List.length names ->
  Py.keys (combine names vals) = names.
Proof.
  revert vals. induction names as [| n names IH]; intros [| v vals] H;
    simpl in *; try discriminate; [reflexivity |].
  f_equal. apply IH. lia.
Qed.

Lemma combine_find {V : Type} (names : list string) (vals : list V)
    (i : nat) (n : string) (v : V) :
  NoDup names -> nth_error names i = Some n -> nth_error vals i = Some v ->
  Py.dict_find (combine names vals) n = Some v.
Proof.
  revert vals i. induction names as [| m names IH]; intros vals i Hnd Hn Hv.
  - destruct i; discriminate.
  - destruct vals as [| w vals]; [destruct i; discriminate |].
    inversion Hnd as [| ? ? Hm Hnd']; subst. simpl.
    destruct i as [| i]; simpl in Hn, Hv.
    + injection Hn as ->. injection Hv as ->. now rewrite String.eqb_refl.
    + destruct (String.eqb_spec m n) as [-> | Hne].
      * exfalso. apply Hm. eapply nth_error_In. exact Hn.
      * eapply IH; eassumption.
Qed.

Lemma nth_error_zip_sum (a b : list R) (i : nat) (x y : R) :
  nth_error a i = Some x -> nth_error b i = Some y ->
  nth_error (map (fun xy => fst xy + snd xy) (combine a b)) i = Some (x + y).
Proof.
  revert b i.
  induction a as [| a0 a IH]; intros [| b0 b] [| i] Ha Hb;
    simpl in *; try discriminate.
  - injection Ha as ->. injection Hb as ->. reflexivity.
  - now apply IH.
Qed.

(** Arrays of one length add elementwise. *)
Lemma add_arrays_same_length (a b : list R) :
  List.length b = List.length a ->
  exists sum,
    add_arrays a b = Py.Ok sum
    /\ List.length sum = List.length a
    /\ forall i x y,
         nth_error a i = Some x -> nth_error b i = Some y ->
         nth_error sum i = Some (x + y).
Proof.
  intros H. unfold add_arrays. rewrite H, Nat.eqb_refl.
  eexists. split; [reflexivity |]. split.
  - rewrite length_map, length_combine, H. apply Nat.min_id.
  - intros i x y. apply nth_error_zip_sum.
Qed.

(** [a + b] returns exactly on broadcastable shapes, with the broadcast
    length, and raises [ValueError] on the others. *)
Lemma add_arrays_shapes (a b : list R) :
  (broadcastable (List.length a) (List.length b) ->
   exists sum,
     add_arrays a b = Py.Ok sum
     /\ List.length sum = broadcast_length (List.length a) (List.length b))
  /\ (~ broadcastable (List.length a) (List.length b) ->
      add_arrays a b
      = Py.Raise (Py.ValueError "operands could not be broadcast together")).
Proof.
  unfold add_arrays, broadcastable, broadcast_length.
  destruct (Nat.eqb_spec (List.length a) (List.length b)) as [E | N].
  - split; [| tauto]. intros _. eexists. split; [reflexivity |].
    rewrite length_map, length_combine, <- E, Nat.min_id.
    destruct (Nat.eqb_spec (List.length a) 1); congruence.
  - destruct a as [| x [| x' a]]; destruct b as [| y [| y' b]];
      cbn [List.length] in *; try congruence;
      (split;
       [ intros [H | [H | H]]; try lia;
         eexists; (split; [reflexivity |]);
         rewrite ?length_map; reflexivity
       | intros H; try reflexivity; exfalso; apply H; lia ]).
Qed.

(** On a trained model that holds the learners ['xgboost'], ['lightgbm']
    and ['catboost'], each with one importance per schema feature, and whose
    feature names are distinct, [get_feature_importance] returns the four
    mappings in order, each over the features in schema order, and the
    ['average'] of a feature is the mean of its three importances. *)
Theorem feature_importance_average (self : HousePriceModel)
    (xgb lgb cat : Regressor) (names : list string) :
  is_trained self = true ->
  feature_names self = Some names ->
  NoDup names ->
  Py.dict_find (models self) "xgboost" = Some xgb ->
  Py.dict_find (models self) "lightgbm" = Some lgb ->
  Py.dict_find (models self) "catboost" = Some cat ->
  List.length (feature_importances_ xgb) = List.length names ->
  List.length (feature_importances_ lgb) = List.length names ->
  List.length (feature_importances_ cat) = List.length names ->
  exists d_xgb d_lgb d_cat d_avg,
    get_feature_importance self
    = Py.Ok [("xgboost", d_xgb); ("lightgbm", d_lgb); ("catboost", d_cat);
             ("average", d_avg)]
    /\ d_xgb = combine names (feature_importances_ xgb)
    /\ d_lgb = combine names (feature_importances_ lgb)
    /\ d_cat = combine names (feature_importances_ cat)
    /\ Py.keys d_avg = names
    /\ forall (i : nat) (n : string) (a b c : R),
         nth_error names i = Some n ->
         nth_error (feature_importances_ xgb) i = Some a ->
         nth_error (feature_importances_ lgb) i = Some b ->
         nth_error (feature_importances_ cat) i = Some c ->
         Py.dict_find d_avg n = Some ((a + b + c) / 3).
Proof.
  intros Ht Hn Hnd Hx Hl Hc Lx Ll Lc.
  unfold get_feature_importance, importance_dict, Py.dict_get.
  rewrite Ht, Hn, Hx, Hl, Hc. cbn [negb Py.bind].
  destruct (add_arrays_same_length (feature_importances_ xgb)
              (feature_importances_ lgb)) as (s1 & -> & L1 & N1);
    [congruence |].
  cbn [Py.bind].
  destruct (add_arrays_same_length s1 (feature_importances_ cat))
    as (s2 & -> & L2 & N2); [congruence |].
  cbn [Py.bind].
  set (avg := map (fun s => s / 3) s2).
  assert (List.length avg = List.length names) as La.
  { unfold avg. rewrite length_map. congruence. }
  rewrite !dict_of_distinct by (rewrite combine_keys; assumption).
  eexists _, _, _, _. split; [reflexivity |].
  repeat split; try reflexivity.
  - now apply combine_keys.
  - intros i n a b c Hi Ha Hb Hcc.
    apply (combine_find names avg i n _ Hnd Hi).
    unfold avg. rewrite nth_error_map.
    rewrite (N2 i (a + b) c); [reflexivity | | exact Hcc].
    now apply N1.
Qed.

Lemma feature_importance_average_witness :
  exists imp d_avg,
    get_feature_importance Scenario.catboost_model = Py.Ok imp
    /\ Py.dict_find imp "average" = Some d_avg
    /\ Py.dict_find d_avg "area" = Some ((1 + 1 + 1) / 3).
Proof.
  destruct (feature_importance_average Scenario.catboost_model
              (Scenario.linear_regressor "area" 1 0)
              (Scenario.linear_regressor "area" 1 0)
              (Scenario.linear_regressor "area" 1 0) ["area"]
              eq_refl eq_refl (NoDup_cons _ (@in_nil _ _) (NoDup_nil _))
              eq_refl eq_refl eq_refl eq_refl eq_refl eq_refl)
    as (dx & dl & dc & da & Himp & _ & _ & _ & _ & Havg).
  exists [("xgboost", dx); ("lightgbm", dl); ("catboost", dc); ("average", da)],
         da.
  split; [exact Himp |]. split; [reflexivity |].
  exact (Havg 0%nat "area" 1 1 1 eq_refl eq_refl eq_refl eq_refl).
Defined.

(** On a trained model with a schema, [get_feature_importance] raises the
    [KeyError] of the first of ['xgboost'], ['lightgbm'], ['catboost'] that
    is missing.  With the three learners present it returns a mapping
    exactly when their importance arrays can be added by NumPy's
    broadcasting rule, and raises [ValueError] when they cannot. *)
Theorem feature_importance_missing_learner (self : HousePriceModel)
    (names : list string) :
  is_trained self = true ->
  feature_names self = Some names ->
  (Py.dict_find (models self) "xgboost" = None ->
   get_feature_importance self = Py.Raise (Py.KeyError "xgboost"))
  /\ (Py.dict_find (models self) "xgboost" <> None ->
      Py.dict_find (models self) "lightgbm" = None ->
      get_feature_importance self = Py.Raise (Py.KeyError "lightgbm"))
  /\ (Py.dict_find (models self) "xgboost" <> None ->
      Py.dict_find (models self) "lightgbm" <> None ->
      Py.dict_find (models self) "catboost" = None ->
      get_feature_importance self = Py.Raise (Py.KeyError "catboost"))
  /\ forall xgb lgb cat : Regressor,
       Py.dict_find (models self) "xgboost" = Some xgb ->
       Py.dict_find (models self) "lightgbm" = Some lgb ->
       Py.dict_find (models self) "catboost" = Some cat ->
       let nx := List.length (feature_importances_ xgb) in
       let nl := List.length (feature_importances_ lgb) in
       let nc := List.length (feature_importances_ cat) in
       let shapes_agree :=
         broadcastable nx nl /\ broadcastable (broadcast_length nx nl) nc in
       (shapes_agree -> exists imp, get_feature_importance self = Py.Ok imp)
       /\ (~ shapes_agree ->
           get_feature_importance self
           = Py.Raise
               (Py.ValueError "operands could not be broadcast together")).
Proof.
  intros Ht Hn.
  unfold get_feature_importance, importance_dict, Py.dict_get.
  rewrite Ht, Hn. cbv beta iota delta [negb].
  split; [intros ->; reflexivity |].
  split; [intros Hx ->;
          destruct (Py.dict_find (models self) "xgboost"); [reflexivity | congruence] |].
  split; [intros Hx Hl ->;
          destruct (Py.dict_find (models self) "xgboost"); [| congruence];
          destruct (Py.dict_find (models self) "lightgbm"); [reflexivity | congruence] |].
  intros xgb lgb cat -> -> ->. cbn [Py.bind].
  destruct (add_arrays_shapes (feature_importances_ xgb)
              (feature_importances_ lgb)) as [Hok1 Hbad1].
  set (nx := List.length (feature_importances_ xgb)) in *.
  set (nl := List.length (feature_importances_ lgb)) in *.
  split.
  - intros [H1 H2]. destruct (Hok1 H1) as (s1 & -> & L1). cbn [Py.bind].
    destruct (add_arrays_shapes s1 (feature_importances_ cat)) as [Hok2 _].
    rewrite L1 in Hok2. destruct (Hok2 H2) as (s2 & -> & _). cbn [Py.bind].
    eauto.
  - intros Hno.
    assert (broadcastable nx nl \/ ~ broadcastable nx nl) as [H1 | H1].
    { unfold broadcastable.
      destruct (Nat.eq_dec nx nl); [tauto |].
      destruct (Nat.eq_dec nx 1); [tauto |].
      destruct (Nat.eq_dec nl 1); tauto. }
    + destruct (Hok1 H1) as (s1 & -> & L1). cbn [Py.bind].
      destruct (add_arrays_shapes s1 (feature_importances_ cat)) as [_ Hbad2].
      rewrite L1 in Hbad2. rewrite Hbad2; [reflexivity |].
      intros H2. apply Hno. split; assumption.
    + rewrite (Hbad1 H1). reflexivity.
Qed.

Lemma feature_importance_missing_learner_witness :
  get_feature_importance Scenario.unweighted_model
  = Py.Raise (Py.KeyError "lightgbm")
  /\ get_feature_importance Scenario.ragged_model
     = Py.Raise (Py.ValueError "operands could not be broadcast together").
Proof.
  split.
  - destruct (feature_importance_missing_learner Scenario.unweighted_model
                ["area"] eq_refl eq_refl) as (_ & Hl & _).
    apply Hl; [discriminate | reflexivity].
  - destruct (feature_importance_missing_learner Scenario.ragged_model
                ["area"; "bedrooms"; "bathrooms"] eq_refl eq_refl)
      as (_ & _ & _ & Hs).
    destruct (Hs _ _ _ eq_refl eq_refl eq_refl) as [_ Hbad].
    apply Hbad. cbn. unfold broadcastable. intros [[H | [H | H]] _]; lia.
Defined.

End ImportanceAverage.

(** ** The explanation of a prediction *)

Section Explanations.

Import ModelTraining Explainer.

Lemma insert_by_abs_perm (x : string * R) (l : list (string * R)) :
  Permutation (insert_by_abs x l) (x :: l).
Proof.
  induction l as [| y l IH]; simpl; [apply Permutation_refl |].
  destruct (NumPy.Rltb (Rabs (snd x)) (Rabs (snd y))).
  - eapply perm_trans; [| apply perm_swap].
    now apply perm_skip.
  - apply Permutation_refl.
Qed.

Lemma sorted_by_abs_perm (l : list (string * R)) :
  Permutation (sorted_by_abs l) l.
Proof.
  induction l as [| x l IH]; simpl; [constructor |].
  eapply perm_trans; [apply insert_by_abs_perm |].
  now apply perm_skip.
Qed.

Lemma insert_by_abs_sorted (x : string * R) (l : list (string * R)) :
  StronglySorted (fun a b => Rabs (snd b) <= Rabs (snd a)) l ->
  StronglySorted (fun a b => Rabs (snd b) <= Rabs (snd a))
                        (insert_by_abs x l).
Proof.
  induction 1 as [| y l Hs IH Hy]; simpl.
  - repeat constructor.
  - destruct (Rlt_dec (Rabs (snd x)) (Rabs (snd y))) as [Hlt | Hge].
    + rewrite Rltb_true by exact Hlt. constructor; [exact IH |].
      apply Forall_forall. intros z Hz.
      apply (Permutation_in _ (insert_by_abs_perm x l)) in Hz.
      destruct Hz as [<- | Hz]; [lra |].
      rewrite Forall_forall in Hy. now apply Hy.
    + rewrite Rltb_false by lra. constructor.
      * now constructor.
      * constructor; [lra |].
        eapply Forall_impl; [| exact Hy]. simpl. intros z Hz. lra.
Qed.

Lemma sorted_by_abs_sorted (l : list (string * R)) :
  StronglySorted (fun a b => Rabs (snd b) <= Rabs (snd a))
                        (sorted_by_abs l).
Proof.
  induction l as [| x l IH]; simpl; [constructor |].
  now apply insert_by_abs_sorted.
Qed.



Lemma sum_permutation (l l' : list R) :
  Permutation l l' -> Py.sum l = Py.sum l'.
Proof.
  induction 1 as [| x l l' _ IH | x y l | l l' l'' _ IH1 _ IH2].
  - reflexivity.
  - rewrite !sum_cons, IH. reflexivity.
  - rewrite !sum_cons. lra.
  - congruence.
Qed.

Lemma member_le_sum (x : R) (l : list R) :
  Forall (fun y => 0 <= y) l -> In x l -> x <= Py.sum l.
Proof.
  induction 1 as [| y l Hy Hl IH]; intros Hin; [contradiction |].
  rewrite sum_cons. pose proof (sum_nonneg l Hl).
  destruct Hin as [-> | Hin]; [lra |]. specialize (IH Hin). lra.
Qed.

Lemma magnitudes_nonneg (l : list (string * R)) :
  Forall (fun y => 0 <= y) (map (fun kv => Rabs (snd kv)) l).
Proof.
  rewrite Forall_map. apply Forall_forall. intros kv _. apply Rabs_pos.
Qed.

Lemma sorted_app_dominates {A : Type} (rel : A -> A -> Prop) (a b : list A) :
  StronglySorted rel (a ++ b)%list ->
  forall x y, In x a -> In y b -> rel x y.
Proof.
  induction a as [| z a IH]; simpl; intros H x y Hx Hy; [contradiction |].
  inversion H as [| ? ? Hs Hz]; subst.
  destruct Hx as [-> | Hx].
  - rewrite Forall_forall in Hz. apply Hz. apply in_or_app. now right.
  - now apply IH.
Qed.

Lemma map_pair_id {A B : Type} (l : list (A * B)) :
  map (fun x => (fst x, snd x)) l = l.
Proof.
  induction l as [| [a b] l IH]; simpl; [reflexivity | now rewrite IH].
Qed.

(** With an explainer set up, [explain_prediction] names as top factors
    the five features of largest absolute SHAP value (all of them when
    there are fewer), in that order; each carries its SHAP value, the
    direction that is the sign of the value, a value of zero counting as
    "decreases", and as percentage [abs(value) / total * 100] of the total
    absolute SHAP value, a number between 0 and 100, or 0 when the total
    is 0; no feature left out has a larger absolute value than a feature
    named. *)
Theorem explain_top_factors (self : ModelExplainer) (X : DataFrame)
    (e : TreeExplainer) :
  explainer self = Some e ->
  exists shap top,
    explain_prediction self X = Explained shap top (expected_value e)
    /\ shap = Py.dict_of (combine (columns X) (shap_values e X))
    /\ map (fun f => (feature f, impact f)) top
       = firstn 5 (sorted_by_abs shap)
    /\ List.length top = Nat.min 5 (List.length shap)
    /\ Forall (fun f => 0 <= impact_percentage f <= 100) top
    /\ (let total := Py.sum (map (fun kv => Rabs (snd kv)) shap) in
        (total = 0 -> Forall (fun f => impact_percentage f = 0) top)
        /\ (total <> 0 ->
            Forall (fun f =>
                      impact_percentage f = Rabs (impact f) / total * 100)
                   top))
    /\ Forall (fun f => direction f = increases <-> 0 < impact f) top
    /\ (forall f kv,
          In f top -> In kv (skipn 5 (sorted_by_abs shap)) ->
          Rabs (snd kv) <= Rabs (impact f)).
Proof.
  intros He. unfold explain_prediction. rewrite He.
  set (shap := Py.dict_of (combine (columns X) (shap_values e X))).
  set (total := Py.sum (map (fun kv => Rabs (snd kv)) shap)).
  set (sorted := sorted_by_abs shap).
  set (mk := fun fv : string * R =>
               {| feature := fst fv; impact := snd fv;
                  impact_percentage :=
                    if NumPy.Rltb 0 total
                    then Rabs (snd fv) / total * 100 else 0;
                  direction :=
                    if NumPy.Rltb 0 (snd fv) then increases else decreases |}).
  exists shap, (map mk (firstn 5 sorted)).
  assert (0 <= total) as Htot by (apply sum_nonneg, magnitudes_nonneg).
  assert (Permutation sorted shap) as Hperm by apply sorted_by_abs_perm.
  assert (Py.sum (map (fun kv => Rabs (snd kv)) sorted) = total) as Hsum.
  { apply sum_permutation. now apply Permutation_map. }
  split; [reflexivity |]. split; [reflexivity |].
  split.
  { rewrite map_map. exact (map_pair_id (firstn 5 sorted)). }
  split.
  { rewrite length_map, length_firstn.
    now rewrite (Permutation_length Hperm). }
  split.
  { rewrite Forall_map. apply Forall_forall. intros kv Hin. simpl.
    destruct (Rlt_dec 0 total) as [Ht | Ht].
    - rewrite Rltb_true by exact Ht.
      assert (Rabs (snd kv) <= total) as Hle.
      { rewrite <- Hsum. apply member_le_sum; [apply magnitudes_nonneg |].
        apply in_map_iff. exists kv. split; [reflexivity |].
        rewrite <- (firstn_skipn 5 sorted). apply in_or_app. now left. }
      pose proof (Rabs_pos (snd kv)) as Ha.
      pose proof (Rinv_0_lt_compat _ Ht) as Hi.
      assert (0 <= Rabs (snd kv) / total <= 1) as [H0 H1].
      { split; [apply Rmult_le_pos; lra |].
        apply (Rmult_le_reg_r total); [exact Ht |].
        unfold Rdiv. rewrite Rmult_assoc, Rinv_l by lra. lra. }
      lra.
    - rewrite Rltb_false by lra. lra. }
  split.
  { fold total. split.
    - intros Hz. rewrite Forall_map. apply Forall_forall. intros kv _. simpl.
      rewrite Rltb_false by lra. reflexivity.
    - intros Hnz. rewrite Forall_map. apply Forall_forall. intros kv _. simpl.
      rewrite Rltb_true by lra. reflexivity. }
  split.
  { rewrite Forall_map. apply Forall_forall. intros kv _. simpl.
    destruct (Rlt_dec 0 (snd kv)) as [Hp | Hp].
    - rewrite Rltb_true by exact Hp. tauto.
    - rewrite Rltb_false by lra. split; [discriminate | lra]. }
  intros f kv Hf Hkv. apply in_map_iff in Hf as (fv & <- & Hfv). simpl.
  pose proof (sorted_by_abs_sorted shap) as Hs. fold sorted in Hs.
  rewrite <- (firstn_skipn 5 sorted) in Hs.
  exact (sorted_app_dominates _ _ _ Hs fv kv Hfv Hkv).
Qed.

Lemma explain_top_factors_witness :
  exists shap top,
    explain_prediction Scenario.ready_explainer
      [("area", [3]); ("garden", [1])]
    = Explained shap top 10
    /\ List.length top = Nat.min 5 (List.length shap)
    /\ map (fun f => (feature f, impact f)) top
       = firstn 5 (sorted_by_abs shap).
Proof.
  destruct (explain_top_factors Scenario.ready_explainer
              [("area", [3]); ("garden", [1])] _ eq_refl)
    as (shap & top & He & _ & Hf & Hl & _).
  exists shap, top. auto.
Defined.

(** After a completed [train], [setup] always finds the ['xgboost']
    learner, so that [explain_prediction] returns an explanation, never the
    not-set-up error; the background data is the training frame itself
    unless it has more than [n_samples] rows. *)
Theorem explain_after_train (lib : ModelTraining.Externals)
    (self self' : HousePriceModel) (X0 : DataFrame) (y : list R)
    (test_size : R) (rep : TrainingReport) :
  train lib self X0 y test_size = (self', Py.Ok rep) ->
  forall (shap_lib : Externals) (X_train X : DataFrame) (n_samples : nat),
    let ex := setup shap_lib (Explainer.__init__ self') X_train n_samples in
    exists xgb shap top,
      Py.dict_find (models self') "xgboost" = Some xgb
      /\ explainer ex = Some (tree_explainer shap_lib xgb)
      /\ explain_prediction ex X
         = Explained shap top (expected_value (tree_explainer shap_lib xgb))
      /\ ((n_rows X_train <= n_samples)%nat ->
          background_data ex = Some X_train).
Proof.
  intros H shap_lib X_train X n_samples ex.
  destruct (trained_shape _ _ _ _ _ _ _ H)
    as (m1 & m2 & r1 & r2 & Hm & _).
  exists m1. subst ex. unfold explain_prediction, setup. simpl.
  rewrite Hm. simpl. eexists _, _. repeat split.
  intros Hle. destruct (Nat.ltb_spec n_samples (n_rows X_train)); [lia |].
  reflexivity.
Qed.

Lemma explain_after_train_witness :
  exists self' shap top,
    explain_prediction
      (setup Scenario.explainer_library (Explainer.__init__ self')
             Scenario.X4 100)
      [("area", [3]); ("garden", [1])]
    = Explained shap top 10.
Proof.
  destruct exact_train_completes as (self' & rep & H).
  destruct (explain_after_train _ _ _ _ _ _ _ H Scenario.explainer_library
              Scenario.X4 [("area", [3]); ("garden", [1])] 100%nat)
    as (xgb & shap & top & _ & _ & He & _).
  exists self', shap, top. exact He.
Defined.

End Explanations.

(** ** Similar properties *)

Section SimilarProperties.

Import ModelTraining Explainer.

Lemma iloc_raises (s : list R) (idx : nat) (e : Py.exn) :
  iloc s idx = Py.Raise e -> e = Py.IndexError.
Proof.
  unfold iloc. destruct (nth_error s idx); [discriminate |].
  intros H. now injection H as <-.
Qed.

Lemma row_dict_raises (X : DataFrame) (idx : nat) (e : Py.exn) :
  row_dict X idx = Py.Raise e -> e = Py.IndexError.
Proof.
  unfold row_dict. induction X as [| [n c] X IH]; simpl; [discriminate |].
  destruct (iloc c idx) as [v | e'] eqn:E; simpl.
  - destruct (Py.mapM _ X) as [f | e'']; simpl; [discriminate |].
    intros H. injection H as <-. now apply IH.
  - intros H. injection H as <-. eapply iloc_raises. exact E.
Qed.

Lemma row_dict_ok (X : DataFrame) (idx : nat) (f : Py.dict R) :
  row_dict X idx = Py.Ok f ->
  Forall (fun nc => (idx < List.length (snd nc))%nat) X
  /\ Py.keys f = columns X.
Proof.
  unfold row_dict. revert f.
  induction X as [| [n c] X IH]; simpl; intros f H.
  - injection H as <-. split; [constructor | reflexivity].
  - unfold iloc at 1 in H. destruct (nth_error c idx) as [v |] eqn:E;
      simpl in H; [| discriminate].
    destruct (Py.mapM _ X) as [f' |]; simpl in H; [| discriminate].
    injection H as <-. destruct (IH f' eq_refl) as [Hall Hk]. split.
    + constructor; [| exact Hall]. simpl. apply nth_error_Some. congruence.
    + unfold columns, Py.keys in *. simpl. now rewrite Hk.
Qed.

Lemma row_dict_in_range (X : DataFrame) (idx : nat) :
  Forall (fun nc => (idx < List.length (snd nc))%nat) X ->
  exists f, row_dict X idx = Py.Ok f.
Proof.
  unfold row_dict. induction 1 as [| [n c] X Hc _ (f & IH)]; simpl.
  - eauto.
  - unfold iloc at 1. simpl in Hc.
    destruct (nth_error c idx) as [v |] eqn:E.
    + simpl. rewrite IH. simpl. eauto.
    + apply nth_error_None in E. lia.
Qed.

Lemma row_dict_values (X : DataFrame) (idx : nat) (f : Py.dict R) :
  row_dict X idx = Py.Ok f ->
  f = map (fun nc => (fst nc, nth idx (snd nc) 0)) X.
Proof.
  unfold row_dict. revert f.
  induction X as [| [n c] X IH]; simpl; intros f H.
  - now injection H as <-.
  - unfold iloc at 1 in H. destruct (nth_error c idx) as [v |] eqn:E;
      simpl in H; [| discriminate].
    destruct (Py.mapM _ X) as [f' |]; simpl in H; [| discriminate].
    injection H as <-. rewrite (IH f' eq_refl).
    now rewrite (nth_error_nth _ _ 0 E).
Qed.

Lemma similar_entries_in_range (X_train : DataFrame) (y_train : list R)
    (nbs : list (R * nat)) :
  Forall (fun nb => row_exists X_train y_train (snd nb)) nbs ->
  forall i, exists entries,
    similar_entries X_train y_train i nbs = Py.Ok entries
    /\ map rank entries = seq (i + 1) (List.length nbs)
    /\ map (fun e => Some (price e)) entries
       = map (fun nb => nth_error y_train (snd nb)) nbs
    /\ map features entries
       = map (fun nb =>
                map (fun nc => (fst nc, nth (snd nb) (snd nc) 0)) X_train)
             nbs.
Proof.
  induction 1 as [| [d idx] nbs [Hy Hx] _ IH]; intros i; simpl.
  - exists []. auto.
  - simpl in Hy, Hx. unfold iloc at 1.
    destruct (nth_error y_train idx) as [p |] eqn:E;
      [| apply nth_error_None in E; lia].
    simpl. destruct (row_dict_in_range X_train idx Hx) as (f & Hf).
    rewrite Hf. simpl.
    destruct (IH (S i)) as (more & -> & Hr & Hp & Hk). simpl.
    eexists. split; [reflexivity |]. simpl. repeat split.
    + rewrite Hr. reflexivity.
    + now rewrite Hp.
    + now rewrite Hk, (row_dict_values _ _ _ Hf).
Qed.

Lemma similar_entries_out_of_range (X_train : DataFrame) (y_train : list R)
    (nbs : list (R * nat)) :
  Exists (fun nb => ~ row_exists X_train y_train (snd nb)) nbs ->
  forall i, similar_entries X_train y_train i nbs = Py.Raise Py.IndexError.
Proof.
  induction 1 as [[d idx] nbs Hnb | [d idx] nbs _ IH]; intros i; simpl.
  - destruct (iloc y_train idx) as [p | e] eqn:E; simpl.
    + destruct (row_dict X_train idx) as [f | e] eqn:F; simpl.
      * exfalso. apply Hnb. split; [| apply (row_dict_ok _ _ _ F)]. simpl.
        unfold iloc in E. apply nth_error_Some.
        intros Hn. rewrite Hn in E. discriminate.
      * now rewrite (row_dict_raises _ _ _ F).
    + now rewrite (iloc_raises _ _ _ E).
  - destruct (iloc y_train idx) as [p | e] eqn:E; simpl.
    + destruct (row_dict X_train idx) as [f | e] eqn:F; simpl.
      * now rewrite IH.
      * now rewrite (row_dict_raises _ _ _ F).
    + now rewrite (iloc_raises _ _ _ E).
Qed.

(** [get_similar_properties] raises what the neighbour search raises.
    When the search returns, the result has one entry per neighbour
    found, ranked 1, 2, ... in the order of the neighbours, each with the
    training price of its row, the value of every training column at its
    row and the score of its distance, provided every neighbour's row
    index exists in the training prices and frame; if some index does not,
    the call raises [IndexError]. *)
Theorem similar_properties_entries (lib : Externals) (X_train : DataFrame)
    (y_train : list R) (input_features : DataFrame) (n_similar : Z) :
  let found :=
    kneighbors lib X_train input_features
      (Z.min n_similar (Z.of_nat (n_rows X_train))) in
  (forall e, found = Py.Raise e ->
     get_similar_properties lib X_train y_train input_features n_similar
     = Py.Raise e)
  /\ forall nbs, found = Py.Ok nbs ->
       (Forall (fun nb => row_exists X_train y_train (snd nb)) nbs ->
        exists entries,
          get_similar_properties lib X_train y_train input_features n_similar
          = Py.Ok entries
          /\ map rank entries = seq 1 (List.length nbs)
          /\ map (fun e => Some (price e)) entries
             = map (fun nb => nth_error y_train (snd nb)) nbs
          /\ map score entries = map (fun nb => similarity_score (fst nb)) nbs
          /\ map features entries
             = map (fun nb =>
                      map (fun nc => (fst nc, nth (snd nb) (snd nc) 0)) X_train)
                   nbs)
       /\ (Exists (fun nb => ~ row_exists X_train y_train (snd nb)) nbs ->
           get_similar_properties lib X_train y_train input_features n_similar
           = Py.Raise Py.IndexError).
Proof.
  intros found. unfold get_similar_properties. fold found. split.
  - intros e ->. reflexivity.
  - intros nbs ->. cbn [Py.bind]. split.
    + intros Hall.
      destruct (similar_entries_in_range X_train y_train nbs Hall 0%nat)
        as (entries & He & Hr & Hp & Hk).
      exists entries. repeat split; try assumption.
      exact (similar_entries_scores _ _ _ _ _ He).
    + intros Hex. now apply similar_entries_out_of_range.
Qed.

Lemma similar_properties_entries_witness :
  (exists entries,
     get_similar_properties Scenario.explainer_library Scenario.X4 Scenario.y4
       [("area", [2])] 5
     = Py.Ok entries
     /\ map rank entries = [1%nat; 2%nat]
     /\ map (fun e => Some (price e)) entries = [Some 2; Some 1]
     /\ map features entries
        = [[("area", 2)]; [("area", 1)]])
  /\ get_similar_properties Scenario.explainer_library Scenario.X4 Scenario.y4
       [("area", [2])] 0
     = Py.Raise (Py.ValueError "Expected n_neighbors > 0").
Proof.
  split.
  - destruct (similar_properties_entries Scenario.explainer_library
                Scenario.X4 Scenario.y4 [("area", [2])] 5) as [_ Hok].
    destruct (Hok _ eq_refl) as [Hin _].
    destruct Hin as (entries & He & Hr & Hp & _ & Hf).
    + repeat constructor; simpl; lia.
    + exists entries. repeat split; [exact He | exact Hr | exact Hp | exact Hf].
  - destruct (similar_properties_entries Scenario.explainer_library
                Scenario.X4 Scenario.y4 [("area", [2])] 0) as [Hraise _].
    exact (Hraise _ eq_refl).
Defined.

End SimilarProperties.

(** ** The handler's zero fill *)

Section ZeroFill.

Import ModelTraining.

Lemma dict_find_app_none {V : Type} (d d' : Py.dict V) (k : string) :
  Py.dict_find (d ++ d')%list k = None -> Py.dict_find d k = None.
Proof.
  induction d as [| [k' v] d IH]; simpl; [reflexivity |].
  destruct (String.eqb k' k); [discriminate | exact IH].
Qed.

Lemma dict_find_none_keys {V : Type} (d : Py.dict V) (k : string) :
  Py.dict_find d k = None -> ~ In k (Py.keys d).
Proof.
  intros H Hin. destruct (dict_get_present d k Hin) as [v Hv].
  unfold Py.dict_get in Hv. rewrite H in Hv. discriminate.
Qed.

Lemma fill_appends (z : list R) (names : list string) :
  forall df : DataFrame,
  exists added,
    fold_left
      (fun df feat =>
         if negb (Py.dict_mem df feat) then Py.dict_set df feat z else df)
      names df
    = (df ++ added)%list
    /\ Forall (fun c => In (fst c) names
                        /\ Py.dict_find df (fst c) = None
                        /\ snd c = z) added.
Proof.
  induction names as [| f names IH]; intros df; simpl.
  - exists []. rewrite app_nil_r. auto.
  - destruct (Py.dict_mem df f) eqn:Hmem; simpl.
    + destruct (IH df) as (added & -> & Hall). exists added.
      split; [reflexivity |].
      eapply Forall_impl; [| exact Hall]. simpl. tauto.
    + assert (Py.dict_find df f = None) as Hf.
      { unfold Py.dict_mem in Hmem.
        destruct (Py.dict_find df f); [discriminate | reflexivity]. }
      rewrite (dict_set_append df f z (dict_find_none_keys _ _ Hf)).
      destruct (IH (df ++ [(f, z)])%list) as (added & -> & Hall).
      exists ((f, z) :: added). rewrite <- app_assoc. split; [reflexivity |].
      constructor; [simpl; auto |].
      eapply Forall_impl; [| exact Hall]. simpl.
      intros c (Hin & Hnone & Hz). split; [now right |].
      split; [| exact Hz]. eapply dict_find_app_none. exact Hnone.
Qed.

(** The loop that prepares a request for the model keeps every column of
    the input where it is and only appends columns: a column of zeros for
    each schema feature that the input lacks.  Afterwards every schema
    feature is a column, and running the loop again changes nothing. *)
Theorem ensure_features_appends (names : list string) (df : DataFrame) :
  (exists added,
      App.ensure_features names df = (df ++ added)%list
      /\ Forall (fun c => In (fst c) names
                          /\ Py.dict_find df (fst c) = None
                          /\ snd c = repeat 0 (n_rows df)) added)
  /\ (forall n, In n names ->
        Py.dict_mem (App.ensure_features names df) n = true)
  /\ App.ensure_features names (App.ensure_features names df)
     = App.ensure_features names df.
Proof.
  split; [apply fill_appends |].
  assert (forall n, In n names ->
            Py.dict_mem (App.ensure_features names df) n = true) as Hmem.
  { intros n Hin. unfold Py.dict_mem, App.ensure_features.
    rewrite fill_lookup. destruct (Py.dict_find df n); [reflexivity |].
    destruct (in_dec string_dec n names); [reflexivity | contradiction]. }
  split; [exact Hmem |].
  set (full := App.ensure_features names df) in *.
  unfold App.ensure_features at 1. generalize (repeat 0 (n_rows full)).
  intros z. clearbody full.
  assert (forall ns, (forall n, In n ns -> Py.dict_mem full n = true) ->
            fold_left
              (fun df feat =>
                 if negb (Py.dict_mem df feat)
                 then Py.dict_set df feat z else df) ns full = full) as Hid.
  { induction ns as [| n ns IH]; intros H; simpl; [reflexivity |].
    rewrite (H n) by now left. simpl. apply IH.
    intros m Hm. apply H. now right. }
  now apply Hid.
Qed.

End ZeroFill.

(** ** The fallbacks of the market service *)

Section ServiceFallbacks.

Import AiIntegration.

Lemma truediv_ok (a b : R) :
  b <> 0 -> ModelTraining.truediv a b = Py.Ok (a / b).
Proof.
  intros H. unfold ModelTraining.truediv. now rewrite Reqb_false.
Qed.

(** The fallback market data of every city: the demand is "high" exactly
    when the trend is "rising", otherwise "medium"; the average price is at
    least the 6000 of an unknown city, which gets a stable trend. *)
Theorem fallback_market_data_levels (city : string) :
  let d := _get_fallback_market_data city in
  (demand_level d = "high" <-> market_trend d = "rising")
  /\ (demand_level d = "high" \/ demand_level d = "medium")
  /\ 6000 <= avg_price_per_sqft d
  /\ md_city d = city
  /\ md_real_time d = false
  /\ (Py.dict_find city_data city = None ->
      avg_price_per_sqft d = 6000 /\ market_trend d = "stable"
      /\ yoy_change_percent d = 5 /\ demand_level d = "medium").
Proof.
  unfold _get_fallback_market_data, city_data.
  cbn -[String.eqb NumPy.Rltb].
  repeat (match goal with
          | |- context [String.eqb ?a city] => destruct (String.eqb a city)
          end; cbn -[String.eqb NumPy.Rltb]);
    real_tests;
    repeat split; intros; try discriminate; try reflexivity;
    try lra; auto.
Qed.

End ServiceFallbacks.

(** ** The market service offline *)

Section ServiceOffline.

Import AiIntegration.

Lemma query_unavailable (lib : Externals) (api_key : string) (q : Question)
    {A : Type} (opening closing : ascii) (loads : string -> option A) :
  service_unavailable lib api_key q ->
  decoded opening closing loads (_query lib api_key q) = Py.Ok None.
Proof.
  unfold _query.
  intros [-> | [[e He] | (r & Hr & [Hs | [[e He] | (v & Hv & Ht)]])]].
  - reflexivity.
  - destruct (String.eqb api_key EmptyString); [reflexivity |]. now rewrite He.
  - destruct (String.eqb api_key EmptyString); [reflexivity |]. rewrite Hr.
    apply Nat.eqb_neq in Hs. now rewrite Hs.
  - destruct (String.eqb api_key EmptyString); [reflexivity |]. rewrite Hr, He.
    destruct (status_code r =? 200)%nat; reflexivity.
  - destruct (String.eqb api_key EmptyString); [reflexivity |]. rewrite Hr, Hv.
    destruct (status_code r =? 200)%nat; [| reflexivity].
    unfold decoded. now rewrite Ht.
Qed.

Lemma query_not_text (lib : Externals) (api_key : string) (q : Question)
    {A : Type} (opening closing : ascii) (loads : string -> option A) :
  content_not_text lib api_key q ->
  decoded opening closing loads (_query lib api_key q)
  = Py.Raise (Py.AttributeError "find").
Proof.
  intros (Hk & r & v & Hr & Hs & Hv & Ht & Hn). unfold _query.
  destruct (String.eqb_spec api_key EmptyString) as [E | _]; [contradiction |].
  rewrite Hr, Hs, Hv. cbn [Nat.eqb].
  unfold decoded. rewrite Ht.
  destruct v; try reflexivity. exfalso. now apply (Hn s).
Qed.

(** Without an API key, or when the request raises, is answered with
    another status than 200, with a body of another shape or with an empty
    content, every method of the service answers with its fallback: cached
    market data, the unadjusted valuation, the fallback comparison, and no
    crime data.  When the content is neither empty nor a text, every
    method raises [AttributeError]. *)
Theorem service_unavailable_falls_back (lib : Externals) (api_key : string) :
  (forall city,
      (service_unavailable lib api_key (AskMarketData city) ->
       get_real_time_market_data lib api_key city
       = Py.Ok (FromFallback (_get_fallback_market_data city)))
      /\ (content_not_text lib api_key (AskMarketData city) ->
          get_real_time_market_data lib api_key city
          = Py.Raise (Py.AttributeError "find")))
  /\ (forall base_price city area bedrooms amenities,
         let q := AskValuation base_price city area bedrooms amenities in
         (service_unavailable lib api_key q ->
          exists v,
            enhance_prediction lib api_key base_price city area bedrooms
              amenities
            = Py.Ok (FromFallback v)
            /\ ai_adjusted_price_lakhs v = base_price / 100000
            /\ price_adjustment_percent v = 0
            /\ ai_enhanced v = false)
         /\ (content_not_text lib api_key q ->
             enhance_prediction lib api_key base_price city area bedrooms
               amenities
             = Py.Raise (Py.AttributeError "find")))
  /\ (forall city predicted_price,
         let q := AskComparison city predicted_price in
         (service_unavailable lib api_key q ->
          get_market_comparison lib api_key city predicted_price
          = Py.Ok (FromFallback (_get_fallback_comparison city predicted_price)))
         /\ (content_not_text lib api_key q ->
             get_market_comparison lib api_key city predicted_price
             = Py.Raise (Py.AttributeError "find")))
  /\ (forall city,
         (service_unavailable lib api_key (AskCrimeData city) ->
          get_city_crime_data lib api_key city = Py.Ok None)
         /\ (content_not_text lib api_key (AskCrimeData city) ->
             get_city_crime_data lib api_key city
             = Py.Raise (Py.AttributeError "find"))).
Proof.
  repeat split; intros H.
  - unfold get_real_time_market_data. now rewrite query_unavailable.
  - unfold get_real_time_market_data. now rewrite query_not_text.
  - unfold enhance_prediction. rewrite query_unavailable by assumption.
    cbn [Py.bind]. eexists. split; [reflexivity |]. auto.
  - unfold enhance_prediction. now rewrite query_not_text.
  - unfold get_market_comparison. now rewrite query_unavailable.
  - unfold get_market_comparison. now rewrite query_not_text.
  - unfold get_city_crime_data. now rewrite query_unavailable.
  - unfold get_city_crime_data. now rewrite query_not_text.
Qed.

Lemma service_unavailable_falls_back_witness :
  get_market_comparison Scenario.offline_library "key" "Pune" 5000000
  = Py.Ok (FromFallback (_get_fallback_comparison "Pune" 5000000))
  /\ get_city_crime_data Scenario.offline_library EmptyString "Pune"
     = Py.Ok None
  /\ get_real_time_market_data Scenario.parts_library "key" "Pune"
     = Py.Raise (Py.AttributeError "find").
Proof.
  destruct (service_unavailable_falls_back Scenario.offline_library "key")
    as (_ & _ & Hcmp & _).
  destruct (service_unavailable_falls_back Scenario.offline_library
              EmptyString) as (_ & _ & _ & Hcrime).
  destruct (service_unavailable_falls_back Scenario.parts_library "key")
    as (Hmarket & _).
  split; [| split].
  - apply (proj1 (Hcmp "Pune" 5000000)). right. left. eexists. reflexivity.
  - apply (proj1 (Hcrime "Pune")). left. reflexivity.
  - apply (proj2 (Hmarket "Pune")). split; [discriminate |].
    eexists _, _. repeat split; try reflexivity. discriminate.
Defined.

End ServiceOffline.

(** ** The JSON text cut out of an answer *)

Section JsonText.

Import AiIntegration.















End JsonText.

(** ** The crime score of a city *)

Section CrimeScores.

Import AiIntegration DataProcessing.

Lemma dict_find_in {V : Type} (d : Py.dict V) (k : string) (v : V) :
  Py.dict_find d k = Some v -> In (k, v) d.
Proof.
  induction d as [| [k' v'] d IH]; simpl; [discriminate |].
  destruct (String.eqb_spec k' k) as [-> | Hne].
  - intros H. injection H as ->. now left.
  - intros H. right. now apply IH.
Qed.

Lemma crime_index_bounds :
  Forall (fun cs => 25 / 10 <= snd cs <= 78 / 10) CITY_CRIME_INDEX.
Proof.
  unfold CITY_CRIME_INDEX.
  repeat (apply Forall_cons; [cbn [snd]; lra |]). apply Forall_nil.
Qed.

Lemma default_index_value : default_index = 5.
Proof. reflexivity. Qed.

(** For a city of the table, once its name is put in title case, the crime
    score comes from the table without any call to the service and without
    touching the cache: the crime index lies between 2.5 and 7.8 and the
    safety score is 10 minus the crime index. *)
Theorem table_city_score (lib : Externals) (ai : AiIntegration.Externals)
    (api_key : string) (cache : Py.dict (Py.dict json)) (city : string)
    (c : R) :
  let name := if String.eqb city EmptyString then "Default"
              else title lib city in
  Py.dict_find CITY_CRIME_INDEX name = Some c ->
  get_city_crime_score lib ai api_key cache city
  = (cache, Hardcoded name c (10 - c))
  /\ 25 / 10 <= c <= 78 / 10
  /\ 22 / 10 <= 10 - c <= 75 / 10.
Proof.
  intros name H. unfold get_city_crime_score. fold name. rewrite H.
  split; [reflexivity |].
  apply dict_find_in in H.
  pose proof crime_index_bounds as Hb. rewrite Forall_forall in Hb.
  specialize (Hb _ H). simpl in Hb. lra.
Qed.

Lemma table_city_score_witness :
  get_city_crime_score Scenario.plain_strings Scenario.offline_library
    "key" [] "Pune"
  = ([], Hardcoded "Pune" (35 / 10) (10 - 35 / 10)).
Proof.
  apply (table_city_score Scenario.plain_strings Scenario.offline_library
           "key" [] "Pune" (35 / 10)).
  reflexivity.
Defined.

(** A city outside the table and the cache, for which the service reports
    a numeric crime index [c] and no safety score, gets the safety score
    [10 - c] from the first call, which caches the report, and the safety
    score 5.0 from every later call, which reads the cache. *)
Theorem cached_score_differs (lib : Externals) (ai : AiIntegration.Externals)
    (api_key : string) (cache : Py.dict (Py.dict json)) (city : string)
    (ai_data : Py.dict json) (c : R) :
  let name := if String.eqb city EmptyString then "Default"
              else title lib city in
  Py.dict_find CITY_CRIME_INDEX name = None ->
  Py.dict_find cache name = None ->
  get_city_crime_data ai api_key name = Py.Ok (Some ai_data) ->
  Py.dict_find ai_data "crime_index" = Some (JNum c) ->
  Py.dict_find ai_data "safety_score" = None ->
  exists cache' crimes trend,
    get_city_crime_score lib ai api_key cache city
    = (cache', RealTime name c (10 - c) crimes trend)
    /\ Py.dict_find cache' name = Some ai_data
    /\ get_city_crime_score lib ai api_key cache' city
       = (cache', Cached name (JNum c) (JNum 5)).
Proof.
  intros name Ht Hc Hai Hci Hss.
  exists (Py.dict_set cache name ai_data). eexists _, _.
  assert (Py.dict_find (Py.dict_set cache name ai_data) name = Some ai_data)
    as Hset by apply dict_find_set_same.
  split; [| split; [exact Hset |]].
  - unfold get_city_crime_score. fold name. rewrite Ht, Hc, Hai.
    unfold Py.dict_mem, get_or. rewrite Hci, Hss. simpl. reflexivity.
  - unfold get_city_crime_score. fold name. rewrite Ht, Hset.
    unfold get_or. rewrite Hci, Hss. reflexivity.
Qed.

Lemma cached_score_differs_witness :
  exists cache' crimes trend,
    get_city_crime_score Scenario.plain_strings Scenario.crime_library
      "key" [] "Atlantis"
    = (cache', RealTime "Atlantis" 7 (10 - 7) crimes trend)
    /\ get_city_crime_score Scenario.plain_strings Scenario.crime_library
         "key" cache' "Atlantis"
       = (cache', Cached "Atlantis" (JNum 7) (JNum 5)).
Proof.
  destruct (cached_score_differs Scenario.plain_strings
              Scenario.crime_library "key" [] "Atlantis"
              [("crime_index", JNum 7); ("real_time", JBool true)] 7
              eq_refl eq_refl eq_refl eq_refl eq_refl)
    as (cache' & crimes & trend & H1 & _ & H2).
  exists cache', crimes, trend. split; [exact H1 | exact H2].
Defined.

(** When the service reports a crime index that [float] cannot convert,
    the first call answers with the default score, yet it has already
    cached the report: every later call answers from the cache with the
    unconverted value. *)
Theorem failed_conversion_is_cached (lib : Externals)
    (ai : AiIntegration.Externals) (api_key : string)
    (cache : Py.dict (Py.dict json)) (city : string)
    (ai_data : Py.dict json) (v : json) (e : Py.exn) :
  let name := if String.eqb city EmptyString then "Default"
              else title lib city in
  Py.dict_find CITY_CRIME_INDEX name = None ->
  Py.dict_find cache name = None ->
  get_city_crime_data ai api_key name = Py.Ok (Some ai_data) ->
  Py.dict_find ai_data "crime_index" = Some v ->
  to_float lib v = Py.Raise e ->
  exists cache',
    get_city_crime_score lib ai api_key cache city
    = (cache', Defaulted name 5 5)
    /\ get_city_crime_score lib ai api_key cache' city
       = (cache', Cached name v (get_or ai_data "safety_score" (JNum 5))).
Proof.
  intros name Ht Hc Hai Hci Hf.
  exists (Py.dict_set cache name ai_data).
  assert (Py.dict_find (Py.dict_set cache name ai_data) name = Some ai_data)
    as Hset by apply dict_find_set_same.
  split.
  - unfold get_city_crime_score. fold name. rewrite Ht, Hc, Hai.
    unfold Py.dict_mem. rewrite Hci.
    unfold get_or at 1. rewrite Hci, Hf. rewrite default_index_value.
    repeat f_equal. lra.
  - unfold get_city_crime_score. fold name. rewrite Ht, Hset.
    unfold get_or at 1. rewrite Hci. reflexivity.
Qed.

Lemma failed_conversion_is_cached_witness :
  exists cache',
    get_city_crime_score Scenario.plain_strings Scenario.vague_library
      "key" [] "Atlantis"
    = (cache', Defaulted "Atlantis" 5 5)
    /\ get_city_crime_score Scenario.plain_strings Scenario.vague_library
         "key" cache' "Atlantis"
       = (cache', Cached "Atlantis" (JStr "high") (JNum 5)).
Proof.
  destruct (failed_conversion_is_cached Scenario.plain_strings
              Scenario.vague_library "key" [] "Atlantis"
              [("crime_index", JStr "high"); ("real_time", JBool true)]
              (JStr "high")
              (Py.ValueError "could not convert string to float")
              eq_refl eq_refl eq_refl eq_refl eq_refl)
    as (cache' & H1 & H2).
  exists cache'. split; [exact H1 | exact H2].
Defined.

End CrimeScores.

(** ** The answer of [/api/predict] *)

Section PredictionAnswer.

Import ModelTraining App.

Lemma confidence_at_most_one (self : HousePriceModel) (X : DataFrame)
    (res : PredictionResult) :
  predict self X = Py.Ok res ->
  exists c, confidence res = NumPy.Fin c /\ c <= 1.
Proof.
  intros H.
  apply predict_ok_inv in H
    as (names & X' & ps & terms & _ & _ & _ & _ & _ & _ & _ & _ & _ & Hc).
  destruct (Py.values ps) as [| v vs] eqn:Hv.
  - simpl in Hc. rewrite mean_nil in Hc. simpl in Hc.
    exists (8 / 10). split; [exact Hc | lra].
  - assert (v :: vs <> []) as Hne by discriminate.
    rewrite (mean_Fin _ Hne), (std_Fin _ Hne) in Hc.
    unfold NumPy.gt, NumPy.lt in Hc.
    destruct (Rlt_dec 0 (Stats.average (v :: vs))) as [Hm | Hm].
    + rewrite Rltb_true in Hc by exact Hm.
      simpl in Hc. rewrite Reqb_false in Hc by lra.
      eexists. split; [exact Hc |].
      pose proof (pstdev_nonneg (v :: vs)) as Hs.
      assert (0 <= Stats.pstdev (v :: vs) / Stats.average (v :: vs)).
      { apply Rmult_le_pos; [exact Hs |].
        left. now apply Rinv_0_lt_compat. }
      lra.
    + rewrite Rltb_false in Hc by lra.
      exists (8 / 10). split; [exact Hc | lra].
Qed.

Lemma predict_from_frame_ok (model : HousePriceModel) (df : DataFrame)
    (p : PredictionResult) :
  predict_from_frame model df = Py.Ok p ->
  exists X, predict model X = Py.Ok p.
Proof.
  unfold predict_from_frame.
  destruct (feature_names model) as [names |]; [| discriminate].
  destruct (select _ names) as [X | e]; simpl; [| discriminate].
  intros H. now exists X.
Qed.

(** A request whose [area] is 0 is answered with the status 500 and no
    prediction, whatever the model and the other inputs: the price per
    square foot divides by the area. *)
Theorem zero_area_is_an_error (model : HousePriceModel) (input_df : DataFrame) :
  predict_outcome model input_df (Some 0) = (500%nat, None).
Proof.
  unfold predict_outcome, prediction_summary.
  destruct (predict_from_frame model input_df) as [p | e]; [| reflexivity].
  unfold truediv. rewrite Reqb_true by reflexivity. reflexivity.
Qed.

(** When the model predicts and the area is not 0, the answer has the
    status 200; its price is the blended estimate, the price per square
    foot is the price over the area (over 1 when the request has none),
    the price is printed in crores exactly from 10,000,000 on, the range
    is printed in crores exactly when its upper end reaches 10,000,000,
    whatever the unit of the price, and the confidence is a percentage of
    at most 100. *)
Theorem predict_answer (model : HousePriceModel) (input_df : DataFrame)
    (area : option R) (p : PredictionResult) :
  predict_from_frame model input_df = Py.Ok p ->
  match area with Some a => a | None => 1 end <> 0 ->
  exists s,
    predict_outcome model input_df area = (200%nat, Some s)
    /\ price s = predicted_price p
    /\ price_per_sqft s
       = price s / match area with Some a => a | None => 1 end
    /\ (fst (price_formatted s) = Crore <-> 10000000 <= price s)
    /\ (fst (fst (range_formatted s)) = Crore
        <-> at_least (price_upper p) 10000000 = true)
    /\ exists c, confidence_percent s = NumPy.Fin c /\ c <= 100.
Proof.
  intros Hp Ha.
  unfold predict_outcome, prediction_summary. rewrite Hp.
  rewrite (truediv_ok _ _ Ha). cbn [Py.bind].
  eexists. split; [reflexivity |]. cbn [price price_per_sqft price_formatted
    range_formatted confidence_percent].
  split; [reflexivity |]. split; [reflexivity |]. split; [| split].
  - destruct (Rlt_dec (predicted_price p) 10000000) as [Hlt | Hge].
    + rewrite Rltb_true by exact Hlt. cbn [fst].
      split; intros H; [discriminate | lra].
    + rewrite Rltb_false by lra. cbn [fst].
      split; intros H; [lra | reflexivity].
  - destruct (at_least (price_upper p) 10000000); cbn [fst]; split;
      intros H; try discriminate; reflexivity.
  - apply predict_from_frame_ok in Hp as (X & Hp).
    apply confidence_at_most_one in Hp as (c & -> & Hc).
    exists (c * 100). split; [reflexivity | lra].
Qed.

Lemma predict_answer_witness :
  exists s,
    predict_outcome Scenario.catboost_model [("area", [1200])] (Some 1200)
    = (200%nat, Some s)
    /\ price_per_sqft s = price s / 1200.
Proof.
  destruct (predict_answer Scenario.catboost_model [("area", [1200])]
              (Some 1200) _ eq_refl)
    as (s & H1 & _ & H2 & _).
  - simpl. lra.
  - exists s. split; [exact H1 | exact H2].
Defined.

End PredictionAnswer.

(** ** The list of cities *)

Section Cities.

Import App.

Lemma insert_by_name_perm (x : CityEntry) (l : list CityEntry) :
  Permutation (insert_by_name x l) (x :: l).
Proof.
  induction l as [| y l IH]; simpl; [apply Permutation_refl |].
  destruct (String.leb (ce_name x) (ce_name y)); [apply Permutation_refl |].
  apply perm_trans with (y :: x :: l); [now apply perm_skip | apply perm_swap].
Qed.

Lemma sort_by_name_perm (l : list CityEntry) :
  Permutation (sort_by_name l) l.
Proof.
  induction l as [| x l IH]; simpl; [apply perm_nil |].
  apply perm_trans with (x :: sort_by_name l);
    [apply insert_by_name_perm | now apply perm_skip].
Qed.

Lemma insert_by_name_sorted (x : CityEntry) (l : list CityEntry) :
  Sorted by_name l -> Sorted by_name (insert_by_name x l).
Proof.
  induction l as [| y l IH]; intros Hs; simpl.
  - repeat constructor.
  - destruct (String.leb (ce_name x) (ce_name y)) eqn:Hxy.
    + constructor; [exact Hs | now constructor].
    + inversion Hs as [| ? ? Hs' Hd]; subst.
      constructor; [now apply IH |].
      assert (by_name y x) as Hyx.
      { destruct (String.leb_total (ce_name x) (ce_name y)) as [H | H];
          [congruence | exact H]. }
      destruct l as [| z l]; simpl; [now constructor |].
      destruct (String.leb (ce_name x) (ce_name z)); constructor;
        [exact Hyx | now inversion Hd].
Qed.

Lemma sort_by_name_sorted (l : list CityEntry) :
  Sorted by_name (sort_by_name l).
Proof.
  induction l as [| x l IH]; simpl; [constructor |].
  now apply insert_by_name_sorted.
Qed.

(** [/api/cities] lists, in the order of their names, exactly the cities
    of the table other than ['Default'], each with its crime index and the
    safety score 10 minus that index. *)
Theorem cities_listing :
  Sorted by_name get_cities
  /\ List.length get_cities
     = (List.length DataProcessing.CITY_CRIME_INDEX - 1)%nat
  /\ forall e,
       In e get_cities
       <-> In (ce_name e, ce_crime_index e) DataProcessing.CITY_CRIME_INDEX
           /\ ce_name e <> "Default"
           /\ ce_safety_score e = 10 - ce_crime_index e.
Proof.
  unfold get_cities. split; [apply sort_by_name_sorted |]. split.
  - rewrite (Permutation_length (sort_by_name_perm _)), length_map.
    reflexivity.
  - intros e. split.
    + intros H.
      apply (Permutation_in _ (sort_by_name_perm _)) in H.
      apply in_map_iff in H as ([n c] & <- & H).
      apply filter_In in H as (H & Hn).
      cbn [fst snd ce_name ce_crime_index ce_safety_score] in *.
      split; [exact H |]. split; [| reflexivity].
      intros ->. discriminate.
    + intros (H & Hn & Hs).
      apply (Permutation_in _ (Permutation_sym (sort_by_name_perm _))).
      apply in_map_iff. exists (ce_name e, ce_crime_index e).
      split.
      * destruct e as [n c s]. cbn [fst snd ce_name ce_crime_index] in *.
        cbn in Hs. now subst s.
      * apply filter_In. split; [exact H |]. cbn [fst].
        destruct (String.eqb_spec (ce_name e) "Default"); [contradiction |].
        reflexivity.
Qed.

End Cities.
